(** * Sora signaling client: a shallow embedding of [src/sora_signaling.cpp]

    The C++ class [sora::SoraSignaling] is embedded as a record of its member
    variables together with one function per member function.  A member
    function is a computation in a small monad that threads the object, the
    ordered list of calls made on the collaborators (websocket, RTC manager,
    RTC connection, logger, notify callback, asio) and the way the call ended:
    it returned, a [boost::json] accessor threw, or [connection_] was
    dereferenced while null.

    - An exception is not caught anywhere in the file: it ends the member
      function, with the object as it is then and the calls made so far.
    - A lambda handed to the connection ([SetOffer], [CreateAnswer],
      [GetStats]) is a member function of its own, run when the connection
      calls back; the call that hands it over is recorded.
    - A call through [ws_] is recorded as a call on the websocket.  The
      functions that make one are completion handlers of that websocket or
      callbacks of a connection made in such a handler, so [ws_] has been
      set by [Connect] when they run.
    - [boost::json::parse], [boost::json::serialize], [URLParts::Parse],
      [RTCManager::createConnection], the version macros and the platform's
      value of [operation_aborted] are parameters of the client. *)

From Stdlib Require Import String Ascii List ZArith Bool Arith Lia DecimalString.
Import ListNotations.
Local Open Scope string_scope.
#[local] Set Warnings "-register-all".

(** ** String literals

    A text with double quotes in it is written with ['] in their place. *)

Definition dquote : ascii := "034"%char.

Fixpoint dq (s : string) : string :=
  match s with
  | EmptyString => EmptyString
  | String c r => String (if Ascii.eqb c "'"%char then dquote else c) (dq r)
  end.

(** ** [boost::json] values as the source uses them *)

Module Json.

(** The kinds of [boost::json::value].  A [double] is kept as the text of its
    literal: no arithmetic is done on it. *)
Inductive value : Type :=
| Null
| Bool (b : bool)
| Int64 (i : Z)
| Uint64 (u : Z)
| Double (literal : string)
| Str (s : string)
| Array (elements : list value)
| Object (members : list (string * value)).

(** What the accessors of [boost::json] throw. *)
Inductive exception : Type :=
| system_error       (* parse: the text is not JSON *)
| invalid_argument   (* as_xxx on a value of another kind *)
| out_of_range.      (* at: no such key *)

(** A value or a thrown exception. *)
Inductive res (A : Type) : Type :=
| Ok (a : A)
| Raise (e : exception).
Arguments Ok {A} a.
Arguments Raise {A} e.

Definition res_bind {A B} (r : res A) (k : A -> res B) : res B :=
  match r with
  | Ok a => k a
  | Raise e => Raise e
  end.

(** [object::find]: the first member with the key. *)
Fixpoint find (key : string) (members : list (string * value)) : option value :=
  match members with
  | [] => None
  | (k, v) :: rest => if String.eqb k key then Some v else find key rest
  end.

(** [object::operator[] (key) = v]: assign in place, or append a new member. *)
Fixpoint set (key : string) (v : value) (members : list (string * value))
  : list (string * value) :=
  match members with
  | [] => [(key, v)]
  | (k, w) :: rest =>
      if String.eqb k key then (k, v) :: rest else (k, w) :: set key v rest
  end.

Definition is_null (v : value) : bool :=
  match v with Null => true | _ => false end.

Definition as_object (v : value) : res (list (string * value)) :=
  match v with Object m => Ok m | _ => Raise invalid_argument end.

Definition as_array (v : value) : res (list value) :=
  match v with Array l => Ok l | _ => Raise invalid_argument end.

Definition as_string (v : value) : res string :=
  match v with Str s => Ok s | _ => Raise invalid_argument end.

Definition as_bool (v : value) : res bool :=
  match v with Bool b => Ok b | _ => Raise invalid_argument end.

(** [value::at (key)]: [as_object().at(key)]. *)
Definition at_ (key : string) (v : value) : res value :=
  res_bind (as_object v) (fun m =>
    match find key m with
    | Some w => Ok w
    | None => Raise out_of_range
    end).

(** [std::string (s.c_str())]: the characters before the first NUL. *)
Fixpoint c_str (s : string) : string :=
  match s with
  | EmptyString => EmptyString
  | String c r => if Ascii.eqb c Ascii.zero then EmptyString else String c (c_str r)
  end.

(** [const std::string x = v.as_string().c_str()]. *)
Definition as_std_string (v : value) : res string :=
  res_bind (as_string v) (fun s => Ok (c_str s)).

(** [const std::string x = v.at(key).as_string().c_str()], the idiom of the
    read handler. *)
Definition string_at (key : string) (v : value) : res string :=
  res_bind (at_ key v) as_std_string.

(** [json_message[key].as_object()[sub] = v] on a message under construction:
    the block under [key] gets the member [sub]. *)
Definition set_in (key sub : string) (v : value) (members : list (string * value))
  : list (string * value) :=
  match find key members with
  | Some (Object block) => set key (Object (set sub v block)) members
  | _ => members
  end.

End Json.

(** ** A concrete JSON text codec

    [boost::json::parse] and [boost::json::serialize] are library code; the
    client below takes them as parameters.  This codec is the instance the
    concrete runs use.  It reads the RFC 8259 grammar restricted to integer
    numbers, to the two-character escapes and to the [\u] escapes of the
    code points below 128; a text outside that fragment is rejected. *)

Module JsonText.
Import Json.

Definition is_ws (c : ascii) : bool :=
  match c with
  | " "%char | "009"%char | "010"%char | "013"%char => true
  | _ => false
  end.

Fixpoint skip_ws (s : string) : string :=
  match s with
  | String c r => if is_ws c then skip_ws r else s
  | EmptyString => s
  end.

Definition unescape (c : ascii) : option ascii :=
  if Ascii.eqb c dquote then Some dquote
  else match c with
       | "\"%char => Some "\"%char
       | "/"%char => Some "/"%char
       | "b"%char => Some "008"%char
       | "f"%char => Some "012"%char
       | "n"%char => Some "010"%char
       | "r"%char => Some "013"%char
       | "t"%char => Some "009"%char
       | _ => None
       end.

Definition hex_value (c : ascii) : option nat :=
  let n := nat_of_ascii c in
  if ((48 <=? n) && (n <=? 57))%nat then Some (n - 48)
  else if ((65 <=? n) && (n <=? 70))%nat then Some (n - 55)
  else if ((97 <=? n) && (n <=? 102))%nat then Some (n - 87)
  else None.

(** The character that the four hexadecimal digits after [\u] name, for a
    code point below 128. *)
Definition unescape_u (a b c d : ascii) : option ascii :=
  match hex_value a, hex_value b, hex_value c, hex_value d with
  | Some 0, Some 0, Some h, Some l =>
      if (h <? 8)%nat then Some (ascii_of_nat (16 * h + l)) else None
  | _, _, _, _ => None
  end.

(** The characters of a string literal after its opening quote, up to and
    including the closing quote. *)
Fixpoint parse_chars (s : string) : option (string * string) :=
  match s with
  | EmptyString => None
  | String c r =>
      if Ascii.eqb c dquote then Some (EmptyString, r)
      else if Ascii.eqb c "\"%char then
        match r with
        | String "u"%char (String h1 (String h2 (String h3 (String h4 r')))) =>
            match unescape_u h1 h2 h3 h4, parse_chars r' with
            | Some d, Some (t, rest) => Some (String d t, rest)
            | _, _ => None
            end
        | String e r' =>
            match unescape e, parse_chars r' with
            | Some d, Some (t, rest) => Some (String d t, rest)
            | _, _ => None
            end
        | EmptyString => None
        end
      else if (nat_of_ascii c <? 32)%nat then None
      else
        match parse_chars r with
        | Some (t, rest) => Some (String c t, rest)
        | None => None
        end
  end.

Definition digit_of (c : ascii) : option Z :=
  let n := nat_of_ascii c in
  if ((48 <=? n) && (n <=? 57))%nat then Some (Z.of_nat (n - 48)) else None.

(** The digits at the head of [s], folded into [acc]. *)
Fixpoint parse_digits (acc : Z) (s : string) : Z * string :=
  match s with
  | String c r =>
      match digit_of c with
      | Some d => parse_digits (10 * acc + d) r
      | None => (acc, s)
      end
  | EmptyString => (acc, s)
  end.

Definition number_ends (s : string) : bool :=
  match s with
  | String c _ =>
      negb (Ascii.eqb c "."%char || Ascii.eqb c "e"%char || Ascii.eqb c "E"%char)
  | EmptyString => true
  end.

(** An unsigned integer literal: no leading zero, no fraction, no exponent. *)
Definition parse_nat_lit (s : string) : option (Z * string) :=
  match s with
  | String c r =>
      match digit_of c with
      | Some 0%Z => if number_ends r
                    then match r with
                         | String c' _ =>
                             match digit_of c' with
                             | Some _ => None
                             | None => Some (0%Z, r)
                             end
                         | EmptyString => Some (0%Z, r)
                         end
                    else None
      | Some d => let '(n, rest) := parse_digits d r in
                  if number_ends rest then Some (n, rest) else None
      | None => None
      end
  | EmptyString => None
  end.

Definition parse_number (s : string) : option (value * string) :=
  match s with
  | String "-"%char r =>
      match parse_nat_lit r with
      | Some (n, rest) =>
          if (n <=? 2 ^ 63)%Z then Some (Int64 (- n), rest) else None
      | None => None
      end
  | _ =>
      match parse_nat_lit s with
      | Some (n, rest) =>
          if (n <? 2 ^ 63)%Z then Some (Int64 n, rest)
          else if (n <? 2 ^ 64)%Z then Some (Uint64 n, rest)
          else None
      | None => None
      end
  end.

(** [s] starts with [lit]: the rest of [s]. *)
Fixpoint strip_prefix (lit s : string) : option string :=
  match lit, s with
  | EmptyString, _ => Some s
  | String a l, String b r => if Ascii.eqb a b then strip_prefix l r else None
  | String _ _, EmptyString => None
  end.

Definition literal (lit : string) (v : value) (s : string) : option (value * string) :=
  match strip_prefix lit s with
  | Some rest => Some (v, rest)
  | None => None
  end.

(** Recursive descent, with fuel for the nesting.  [parse_elements] reads the
    elements of an array from the first one to the closing bracket,
    [parse_members] the members of an object from the first key to the closing
    brace.  A repeated key keeps its last value. *)
Fixpoint parse_value (fuel : nat) (s : string) {struct fuel} : option (value * string) :=
  match fuel with
  | O => None
  | S n =>
      match skip_ws s with
      | String "n"%char _ as t => literal "null" Null t
      | String "t"%char _ as t => literal "true" (Bool true) t
      | String "f"%char _ as t => literal "false" (Bool false) t
      | String "034"%char r =>
          match parse_chars r with
          | Some (t, rest) => Some (Str t, rest)
          | None => None
          end
      | String "["%char r =>
          match skip_ws r with
          | String "]"%char rest => Some (Array [], rest)
          | _ =>
              match parse_elements n r with
              | Some (vs, rest) => Some (Array vs, rest)
              | None => None
              end
          end
      | String "{"%char r =>
          match skip_ws r with
          | String "}"%char rest => Some (Object [], rest)
          | _ =>
              match parse_members n r with
              | Some (ms, rest) =>
                  Some (Object (fold_left (fun acc kv => set (fst kv) (snd kv) acc) ms []),
                        rest)
              | None => None
              end
          end
      | t => parse_number t
      end
  end
with parse_elements (fuel : nat) (s : string) {struct fuel} : option (list value * string) :=
  match fuel with
  | O => None
  | S n =>
      match parse_value n s with
      | Some (v, r) =>
          match skip_ws r with
          | String ","%char r' =>
              match parse_elements n r' with
              | Some (vs, rest) => Some (v :: vs, rest)
              | None => None
              end
          | String "]"%char rest => Some ([v], rest)
          | _ => None
          end
      | None => None
      end
  end
with parse_members (fuel : nat) (s : string) {struct fuel}
  : option (list (string * value) * string) :=
  match fuel with
  | O => None
  | S n =>
      match skip_ws s with
      | String "034"%char r =>
          match parse_chars r with
          | Some (k, r1) =>
              match skip_ws r1 with
              | String ":"%char r2 =>
                  match parse_value n r2 with
                  | Some (v, r3) =>
                      match skip_ws r3 with
                      | String ","%char r4 =>
                          match parse_members n r4 with
                          | Some (ms, rest) => Some ((k, v) :: ms, rest)
                          | None => None
                          end
                      | String "}"%char rest => Some ([(k, v)], rest)
                      | _ => None
                      end
                  | None => None
                  end
              | _ => None
              end
          | None => None
          end
      | _ => None
      end
  end.

(** A whole text is one value, with blanks around it and nothing else. *)
Definition parse (text : string) : option value :=
  match parse_value (2 * String.length text + 2) text with
  | Some (v, rest) =>
      match skip_ws rest with
      | EmptyString => Some v
      | String _ _ => None
      end
  | None => None
  end.

Definition hex_digit (n : nat) : ascii :=
  if (n <? 10)%nat then ascii_of_nat (48 + n) else ascii_of_nat (87 + n).

Fixpoint escape (s : string) : string :=
  match s with
  | EmptyString => EmptyString
  | String c r =>
      (if Ascii.eqb c dquote then String "\"%char (String dquote EmptyString)
       else if Ascii.eqb c "\"%char then "\\"
       else if Ascii.eqb c "008"%char then "\b"
       else if Ascii.eqb c "012"%char then "\f"
       else if Ascii.eqb c "010"%char then "\n"
       else if Ascii.eqb c "013"%char then "\r"
       else if Ascii.eqb c "009"%char then "\t"
       else if (nat_of_ascii c <? 32)%nat then
         "\u00" ++ String (hex_digit (nat_of_ascii c / 16))
                     (String (hex_digit (nat_of_ascii c mod 16)) EmptyString)
       else String c EmptyString) ++ escape r
  end.

Definition quote (s : string) : string :=
  String dquote (escape s ++ String dquote EmptyString).

Definition string_of_Z (z : Z) : string := NilZero.string_of_int (Z.to_int z).

(** Compact output, members in their stored order. *)
Fixpoint serialize (v : value) : string :=
  match v with
  | Null => "null"
  | Bool true => "true"
  | Bool false => "false"
  | Int64 i => string_of_Z i
  | Uint64 u => string_of_Z u
  | Double lit => lit
  | Str s => quote s
  | Array l =>
      "[" ++ (fix elements (l : list value) : string :=
                match l with
                | [] => ""
                | [x] => serialize x
                | x :: rest => serialize x ++ "," ++ elements rest
                end) l ++ "]"
  | Object m =>
      "{" ++ (fix members (m : list (string * value)) : string :=
                match m with
                | [] => ""
                | [(k, x)] => quote k ++ ":" ++ serialize x
                | (k, x) :: rest => quote k ++ ":" ++ serialize x ++ "," ++ members rest
                end) m ++ "}"
  end.

End JsonText.

(** ** The collaborators of the client *)

(** [webrtc::PeerConnectionInterface::IceConnectionState], in the order of its
    declaration. *)
Inductive IceConnectionState : Type :=
| kIceConnectionNew
| kIceConnectionChecking
| kIceConnectionConnected
| kIceConnectionCompleted
| kIceConnectionFailed
| kIceConnectionDisconnected
| kIceConnectionClosed
| kIceConnectionMax.

(** The integer an unscoped enumerator prints as. *)
Definition IceConnectionState_ordinal (s : IceConnectionState) : Z :=
  match s with
  | kIceConnectionNew => 0
  | kIceConnectionChecking => 1
  | kIceConnectionConnected => 2
  | kIceConnectionCompleted => 3
  | kIceConnectionFailed => 4
  | kIceConnectionDisconnected => 5
  | kIceConnectionClosed => 6
  | kIceConnectionMax => 7
  end%Z.

Definition IceConnectionState_eqb (a b : IceConnectionState) : bool :=
  Z.eqb (IceConnectionState_ordinal a) (IceConnectionState_ordinal b).

Definition iceConnectionStateToString (state : IceConnectionState) : string :=
  match state with
  | kIceConnectionNew => "new"
  | kIceConnectionChecking => "checking"
  | kIceConnectionConnected => "connected"
  | kIceConnectionCompleted => "completed"
  | kIceConnectionFailed => "failed"
  | kIceConnectionDisconnected => "disconnected"
  | kIceConnectionClosed => "closed"
  | kIceConnectionMax => "max"
  end.

(** [boost::system::error_code], by what the handlers test: nothing failed,
    the operation was cancelled ([boost::asio::error::operation_aborted]), or
    some other failure, named by the text it prints as. *)
Inductive error_code : Type :=
| success
| operation_aborted
| failure (what : string).

(** [if (ec)]. *)
Definition failed (ec : error_code) : bool :=
  match ec with success => false | _ => true end.

(** [ec == boost::asio::error::operation_aborted]. *)
Definition is_operation_aborted (ec : error_code) : bool :=
  match ec with operation_aborted => true | _ => false end.

(** [os << ec]: the name of the category, a colon and the value.
    [operation_aborted] is of the system category and its value is the
    platform's, [aborted]; no error is the value 0 of the system category. *)
Definition error_code_text (aborted : Z) (ec : error_code) : string :=
  match ec with
  | success => "system:0"
  | operation_aborted => "system:" ++ JsonText.string_of_Z aborted
  | failure what => what
  end.

(** The fields of [URLParts] the client reads. *)
Record URLParts : Type := {
  scheme : string;
  host : string;
  port : string
}.

Inductive Role : Type := Sendonly | Recvonly | Sendrecv.

(** [SoraSignalingConfig], the fields [sora_signaling.cpp] reads. *)
Record SoraSignalingConfig : Type := {
  unity_version : string;
  signaling_url : string;
  channel_id : string;
  metadata : Json.value;
  video_codec : string;
  video_bitrate : Z;
  audio_codec : string;
  audio_bitrate : Z;
  role : Role;
  multistream : bool;
  insecure : bool
}.

(** [webrtc::PeerConnectionInterface::IceServer] and [RTCConfiguration]. *)
Record IceServer : Type := {
  uri : string;
  username : string;
  password : string
}.

Record RTCConfiguration : Type := {
  servers : list IceServer
}.

(** A connection made by the RTC manager: which one it is and what it was
    made from. *)
Record RTCConnection : Type := {
  conn_id : nat;
  conn_config : RTCConfiguration
}.

(** A websocket as constructed: plain, or TLS with the [insecure] flag. *)
Record Websocket : Type := {
  ssl : bool;
  ws_insecure : bool
}.

(** [webrtc::RTCStatsReport], by the JSON text it prints as. *)
Record RTCStatsReport : Type := {
  ToJson : string
}.

(** ** The client object *)

(** The member variables of [SoraSignaling].  [on_notify_] is whether the
    [std::function] holds a target; [manager_] stands for the manager the
    pointer leads to, by the number of times it has been asked for a
    connection. *)
Record SoraSignaling : Type := {
  manager_ : nat;
  config_ : SoraSignalingConfig;
  on_notify_ : bool;
  ws_ : option Websocket;
  connection_ : option RTCConnection;
  parts_ : URLParts;
  rtc_state_ : IceConnectionState;
  connected_ : bool
}.

Definition with_ws (w : option Websocket) (s : SoraSignaling) : SoraSignaling :=
  {| manager_ := manager_ s; config_ := config_ s; on_notify_ := on_notify_ s;
     ws_ := w; connection_ := connection_ s; parts_ := parts_ s;
     rtc_state_ := rtc_state_ s; connected_ := connected_ s |}.

Definition with_connection (c : option RTCConnection) (s : SoraSignaling) : SoraSignaling :=
  {| manager_ := manager_ s; config_ := config_ s; on_notify_ := on_notify_ s;
     ws_ := ws_ s; connection_ := c; parts_ := parts_ s;
     rtc_state_ := rtc_state_ s; connected_ := connected_ s |}.

Definition with_manager (m : nat) (s : SoraSignaling) : SoraSignaling :=
  {| manager_ := m; config_ := config_ s; on_notify_ := on_notify_ s;
     ws_ := ws_ s; connection_ := connection_ s; parts_ := parts_ s;
     rtc_state_ := rtc_state_ s; connected_ := connected_ s |}.

Definition with_rtc_state (r : IceConnectionState) (s : SoraSignaling) : SoraSignaling :=
  {| manager_ := manager_ s; config_ := config_ s; on_notify_ := on_notify_ s;
     ws_ := ws_ s; connection_ := connection_ s; parts_ := parts_ s;
     rtc_state_ := r; connected_ := connected_ s |}.

Definition with_connected (b : bool) (s : SoraSignaling) : SoraSignaling :=
  {| manager_ := manager_ s; config_ := config_ s; on_notify_ := on_notify_ s;
     ws_ := ws_ s; connection_ := connection_ s; parts_ := parts_ s;
     rtc_state_ := rtc_state_ s; connected_ := b |}.

(** ** Calls on the collaborators, and the monad of member functions *)

Inductive severity : Type := LS_INFO | LS_ERROR.

(** The two completion handlers given to [SetOffer]: the one of an offer
    answers with an [answer] message, the one of an update with an [update]. *)
Inductive negotiation : Type := ForOffer | ForUpdate.

(** What is handed to [boost::asio::post]. *)
Inductive task : Type :=
| DoIceConnectionStateChange_task (new_state : IceConnectionState).

(** Where [boost::asio::post] submits what it is handed: the executor of the
    client's [ioc_], or [boost::asio::system_executor]. *)
Inductive executor : Type :=
| ioc_executor
| system_executor.

(** [boost::asio::get_associated_executor] of a handler that
    [boost::beast::bind_front_handler] makes of a member function and its
    arguments: the one-argument [boost::asio::post] submits to it.  Nothing
    in such a handler names an executor, which leaves the default. *)
Definition associated_executor (t : task) : executor := system_executor.

Inductive call : Type :=
| RTC_LOG (sev : severity) (message : string)
| Websocket_new (w : Websocket)
| Websocket_Connect (url : string)
| Websocket_Read
| Websocket_WriteText (text : string)
| Websocket_Close
| RTCManager_createConnection (rtc_config : RTCConfiguration)
| RTCConnection_SetOffer (c : RTCConnection) (sdp : string) (on_success : negotiation)
| RTCConnection_CreateAnswer (c : RTCConnection) (on_success : negotiation)
| RTCConnection_GetStats (c : RTCConnection)
| RTCConnection_release (c : RTCConnection)
| on_notify (text : string)
| asio_post (ex : executor) (t : task).

(** How a member function ends. *)
Inductive ending (A : Type) : Type :=
| Returned (a : A)
| Threw (e : Json.exception)
| NullConnection.
Arguments Returned {A} a.
Arguments Threw {A} e.
Arguments NullConnection {A}.

Definition M (A : Type) : Type := SoraSignaling -> ending A * SoraSignaling * list call.

Definition ret {A} (a : A) : M A := fun s => (Returned a, s, []).

Definition bind {A B} (m : M A) (k : A -> M B) : M B :=
  fun s =>
    match m s with
    | (Returned a, s1, c1) =>
        match k a s1 with
        | (e, s2, c2) => (e, s2, (c1 ++ c2)%list)
        end
    | (Threw e, s1, c1) => (Threw e, s1, c1)
    | (NullConnection, s1, c1) => (NullConnection, s1, c1)
    end.

Declare Scope sora_scope.
Delimit Scope sora_scope with sora.
Notation "x <- m ;; k" := (bind m (fun x => k))
  (at level 61, m at next level, right associativity) : sora_scope.
Notation "m ;; k" := (bind m (fun _ => k))
  (at level 61, right associativity) : sora_scope.
Local Open Scope sora_scope.

Definition this : M SoraSignaling := fun s => (Returned s, s, []).
Definition modify (f : SoraSignaling -> SoraSignaling) : M unit :=
  fun s => (Returned tt, f s, []).
Definition do (c : call) : M unit := fun s => (Returned tt, s, [c]).
Definition lift {A} (r : Json.res A) : M A :=
  fun s => match r with
           | Json.Ok a => (Returned a, s, [])
           | Json.Raise e => (Threw e, s, [])
           end.

(** [connection_->]: the connection the pointer holds, when it holds one. *)
Definition deref_connection : M RTCConnection :=
  fun s => match connection_ s with
           | Some c => (Returned c, s, [])
           | None => (NullConnection, s, [])
           end.

(** The reference given up when [connection_] is assigned. *)
Definition released (s : SoraSignaling) : list call :=
  match connection_ s with
  | Some old => [RTCConnection_release old]
  | None => []
  end.

(** [connection_ = c], the assignment of a [shared_ptr]: the reference held
    before is given up. *)
Definition assign_connection (c : option RTCConnection) : M unit :=
  fun s => (Returned tt, with_connection c s, released s).

(** The three parts of the result of running a member function. *)
Definition ending_of {A} (r : ending A * SoraSignaling * list call) : ending A := fst (fst r).
Definition object_of {A} (r : ending A * SoraSignaling * list call) : SoraSignaling := snd (fst r).
Definition calls_of {A} (r : ending A * SoraSignaling * list call) : list call := snd r.

(** ** A concrete URL splitter

    [URLParts::Parse] is not part of [sora_signaling.cpp]; the client takes it
    as a parameter.  This splitter ([scheme://host[:port][/...]]) is the
    instance the concrete runs use. *)

Module URL.

Definition split_once (sep s : string) : option (string * string) :=
  match String.index 0 sep s with
  | Some i =>
      Some (String.substring 0 i s,
            String.substring (i + String.length sep)
                             (String.length s - (i + String.length sep)) s)
  | None => None
  end.

Definition Parse (url : string) : option URLParts :=
  match split_once "://" url with
  | Some (sch, rest) =>
      let authority := match split_once "/" rest with
                       | Some (a, _) => a
                       | None => rest
                       end in
      let '(h, p) := match split_once ":" authority with
                     | Some (h, p) => (h, p)
                     | None => (authority, "")
                     end in
      if (String.length sch =? 0)%nat || (String.length h =? 0)%nat then None
      else Some {| scheme := sch; host := h; port := p |}
  | None => None
  end.

End URL.

(** ** A concrete RTC manager

    [RTCManager] is not part of [sora_signaling.cpp] either.  This manager,
    the instance the concrete runs use, always returns a connection and
    numbers the connections it makes. *)

Definition makes_connection (n : nat) (rtc_config : RTCConfiguration)
  : option RTCConnection :=
  Some {| conn_id := n; conn_config := rtc_config |}.

(** ** The member functions of [SoraSignaling] *)

Section Signaling.

(** [boost::json::parse] ([None]: it throws) and [boost::json::serialize]. *)
Variable parse : string -> option Json.value.
Variable serialize : Json.value -> string.

(** [URLParts::Parse] ([None]: it returns false). *)
Variable URLParts_Parse : string -> option URLParts.

(** [RTCManager::createConnection], by what it returns for a configuration
    when the manager has been asked [n] times before ([None]: [nullptr]). *)
Variable RTCManager_creates : nat -> RTCConfiguration -> option RTCConnection.

(** The macros of [sora_version.h] and of the build. *)
Variable SORA_UNITY_SDK_VERSION : string.
Variable SORA_UNITY_SDK_COMMIT_SHORT : string.
Variable SORA_UNITY_SDK_PLATFORM : string.
Variable WEBRTC_READABLE_VERSION : string.
Variable WEBRTC_BUILD_VERSION : string.
Variable WEBRTC_SRC_COMMIT_SHORT : string.

(** The value of [boost::asio::error::operation_aborted]: the platform's
    [ECANCELED] (125 on Linux), [ERROR_OPERATION_ABORTED] on Windows. *)
Variable operation_aborted_value : Z.

Definition getRTCConnectionState (s : SoraSignaling) : IceConnectionState :=
  rtc_state_ s.

Definition getRTCConnection (s : SoraSignaling) : option RTCConnection :=
  if IceConnectionState_eqb (rtc_state_ s) kIceConnectionConnected
  then connection_ s
  else None.

Definition Init : M bool := ret true.

(** The object [new SoraSignaling(ioc, manager, config, on_notify)] makes:
    the four members of the initialiser list, and the other members as
    default-initialised smart pointers and strings.  Modelled from the spec:
    the initialisers of [rtc_state_] and [connected_] are in
    [sora_signaling.h], which is not under src/; the spec starts the state
    machine at New and the control channel as not connected. *)
Definition SoraSignaling_new (manager : nat) (config : SoraSignalingConfig)
  (notify : bool) : SoraSignaling :=
  {| manager_ := manager; config_ := config; on_notify_ := notify;
     ws_ := None; connection_ := None;
     parts_ := {| scheme := ""; host := ""; port := "" |};
     rtc_state_ := kIceConnectionNew; connected_ := false |}.

(** [Create]: the new object when [Init] returns true, else [nullptr]. *)
Definition Create (manager : nat) (config : SoraSignalingConfig) (notify : bool)
  : option SoraSignaling :=
  let p := SoraSignaling_new manager config notify in
  match Init p with
  | (Returned true, p', _) => Some p'
  | _ => None
  end.

Definition Release : M unit :=
  (* auto connection = std::move(connection_); connection = nullptr; *)
  assign_connection None.

Definition DoRead : M unit := do Websocket_Read.

Definition SORA_CLIENT : string :=
  "Sora Unity SDK " ++ SORA_UNITY_SDK_VERSION ++ " (" ++ SORA_UNITY_SDK_COMMIT_SHORT ++ ")".

Definition LIBWEBRTC : string :=
  "Shiguredo-build " ++ WEBRTC_READABLE_VERSION ++ " (" ++ WEBRTC_BUILD_VERSION
  ++ " " ++ WEBRTC_SRC_COMMIT_SHORT ++ ")".

Definition role_string (r : Role) : string :=
  match r with
  | Sendonly => "sendonly"
  | Recvonly => "recvonly"
  | Sendrecv => "sendrecv"
  end.

(** The members of [json_message] as [DoSendConnect] builds them, statement
    by statement. *)
Definition connect_message (config : SoraSignalingConfig) : list (string * Json.value) :=
  let json_message :=
    [ ("type", Json.Str "connect");
      ("role", Json.Str (role_string (role config)));
      ("multistream", Json.Bool (multistream config));
      ("channel_id", Json.Str (channel_id config));
      ("sora_client", Json.Str SORA_CLIENT);
      ("libwebrtc", Json.Str LIBWEBRTC);
      ("environment",
       Json.Str ("Unity " ++ unity_version config ++ " for " ++ SORA_UNITY_SDK_PLATFORM)) ] in
  let json_message :=
    if negb (Json.is_null (metadata config))
    then Json.set "metadata" (metadata config) json_message
    else json_message in
  let json_message := Json.set "video" (Json.Object []) json_message in
  let json_message :=
    Json.set_in "video" "codec_type" (Json.Str (video_codec config)) json_message in
  let json_message :=
    if negb (video_bitrate config =? 0)%Z
    then Json.set_in "video" "bit_rate" (Json.Int64 (video_bitrate config)) json_message
    else json_message in
  let json_message := Json.set "audio" (Json.Object []) json_message in
  let json_message :=
    Json.set_in "audio" "codec_type" (Json.Str (audio_codec config)) json_message in
  let json_message :=
    if negb (audio_bitrate config =? 0)%Z
    then Json.set_in "audio" "bit_rate" (Json.Int64 (audio_bitrate config)) json_message
    else json_message in
  json_message.

Definition DoSendConnect : M unit :=
  s <- this ;;
  do (Websocket_WriteText (serialize (Json.Object (connect_message (config_ s))))).

Definition DoSendPong : M unit :=
  let json_message := Json.Object [("type", Json.Str "pong")] in
  do (Websocket_WriteText (serialize json_message)).

Definition DoSendPong_report (report : RTCStatsReport) : M unit :=
  let stats := ToJson report in
  let str := dq "{'type':'pong','stats':" ++ stats ++ "}" in
  do (Websocket_WriteText str).

Definition Connect : M bool :=
  do (RTC_LOG LS_INFO "Connect") ;;
  s <- this ;;
  if connected_ s then ret false
  else
    let port' :=
      if negb (String.length (port (parts_ s)) =? 0)%nat then port (parts_ s) else "443" in
    do (RTC_LOG LS_INFO ("Connect to " ++ host (parts_ s))) ;;
    match URLParts_Parse (signaling_url (config_ s)) with
    | None =>
        do (RTC_LOG LS_ERROR ("Invalid Signaling URL: " ++ signaling_url (config_ s))) ;;
        ret false
    | Some parts =>
        let connect :=
          do (Websocket_Connect (signaling_url (config_ s))) ;; ret true in
        if String.eqb (scheme parts) "ws" then
          let w := {| ssl := false; ws_insecure := false |} in
          do (Websocket_new w) ;; modify (with_ws (Some w)) ;; connect
        else if String.eqb (scheme parts) "wss" then
          let w := {| ssl := true; ws_insecure := insecure (config_ s) |} in
          do (Websocket_new w) ;; modify (with_ws (Some w)) ;; connect
        else ret false
    end.

Definition OnConnect (ec : error_code) : M unit :=
  do (RTC_LOG LS_INFO "OnConnect") ;;
  if failed ec then
    do (RTC_LOG LS_ERROR ("Failed Websocket handshake: "
                          ++ error_code_text operation_aborted_value ec))
  else
    modify (with_connected true) ;;
    do (RTC_LOG LS_INFO "Signaling Websocket is connected") ;;
    DoRead ;;
    DoSendConnect.

Definition Close : M unit := do Websocket_Close.

Definition OnClose (ec : error_code) : M unit :=
  if failed ec
  then do (RTC_LOG LS_ERROR ("Failed to close: ec=" ++ error_code_text operation_aborted_value ec))
  else ret tt.

(** The inner loop of [CreatePeerFromConfig]: one [IceServer] per url. *)
Fixpoint ice_servers_of_urls (user credential : string) (urls : list Json.value)
  : Json.res (list IceServer) :=
  match urls with
  | [] => Json.Ok []
  | url :: rest =>
      Json.res_bind (Json.as_std_string url) (fun u =>
      Json.res_bind (ice_servers_of_urls user credential rest) (fun more =>
      Json.Ok ({| uri := u; username := user; password := credential |} :: more)))
  end.

(** The outer loop: the servers of every element of [iceServers], in order. *)
Fixpoint ice_servers_of (jservers : list Json.value) : Json.res (list IceServer) :=
  match jservers with
  | [] => Json.Ok []
  | jserver :: rest =>
      Json.res_bind (Json.string_at "username" jserver) (fun user =>
      Json.res_bind (Json.string_at "credential" jserver) (fun credential =>
      Json.res_bind (Json.at_ "urls" jserver) (fun jurls =>
      Json.res_bind (Json.as_array jurls) (fun urls =>
      Json.res_bind (ice_servers_of_urls user credential urls) (fun here =>
      Json.res_bind (ice_servers_of rest) (fun more =>
      Json.Ok (here ++ more)%list))))))
  end.

(** The [RTCConfiguration] that [CreatePeerFromConfig] reads out of [jconfig]. *)
Definition rtc_config_of (jconfig : Json.value) : Json.res RTCConfiguration :=
  Json.res_bind (Json.at_ "iceServers" jconfig) (fun jservers =>
  Json.res_bind (Json.as_array jservers) (fun servers_array =>
  Json.res_bind (ice_servers_of servers_array) (fun ice_servers =>
  Json.Ok {| servers := ice_servers |}))).

(** [manager_->createConnection(rtc_config, this)]: the manager is asked once
    more, and what it returns is the result. *)
Definition createConnection (rtc_config : RTCConfiguration) : M (option RTCConnection) :=
  s <- this ;;
  do (RTCManager_createConnection rtc_config) ;;
  modify (with_manager (S (manager_ s))) ;;
  ret (RTCManager_creates (manager_ s) rtc_config).

Definition CreatePeerFromConfig (jconfig : Json.value) : M unit :=
  rtc_config <- lift (rtc_config_of jconfig) ;;
  c <- createConnection rtc_config ;;
  assign_connection c.

(** The completion handler given to [SetOffer]:
    [connection_->CreateAnswer(...)]. *)
Definition SetOffer_on_success (n : negotiation) : M unit :=
  c <- deref_connection ;;
  do (RTCConnection_CreateAnswer c n).

Definition answer_type (n : negotiation) : string :=
  match n with
  | ForOffer => "answer"
  | ForUpdate => "update"
  end.

(** The handler given to [CreateAnswer]; [sdp] is what [desc->ToString]
    gives. *)
Definition CreateAnswer_on_success (n : negotiation) (sdp : string) : M unit :=
  let json_message :=
    Json.Object [("type", Json.Str (answer_type n)); ("sdp", Json.Str sdp)] in
  do (Websocket_WriteText (serialize json_message)).

(** The callback given to [GetStats]. *)
Definition GetStats_callback (report : RTCStatsReport) : M unit :=
  DoSendPong_report report.

(** The branches of the [if]/[else if] chain of [OnRead].  The result is
    whether the branch left the function ([return;]). *)
Definition OnRead_dispatch (text : string) (json_message : Json.value) (type : string)
  : M bool :=
  if String.eqb type "offer" then
    jconfig <- lift (Json.at_ "config" json_message) ;;
    CreatePeerFromConfig jconfig ;;
    sdp <- lift (Json.string_at "sdp" json_message) ;;
    c <- deref_connection ;;
    do (RTCConnection_SetOffer c sdp ForOffer) ;;
    ret false
  else if String.eqb type "update" then
    sdp <- lift (Json.string_at "sdp" json_message) ;;
    c <- deref_connection ;;
    do (RTCConnection_SetOffer c sdp ForUpdate) ;;
    ret false
  else if String.eqb type "notify" then
    s <- this ;;
    (if on_notify_ s then do (on_notify text) else ret tt) ;;
    ret false
  else if String.eqb type "ping" then
    s <- this ;;
    if negb (IceConnectionState_eqb (rtc_state_ s) kIceConnectionConnected) then
      DoRead ;;
      ret true
    else
      members <- lift (Json.as_object json_message) ;;
      wants_stats <- match Json.find "stats" members with
                     | Some v => lift (Json.as_bool v)
                     | None => ret false
                     end ;;
      (if wants_stats : bool then
         c <- deref_connection ;;
         do (RTCConnection_GetStats c)
       else DoSendPong) ;;
      ret false
  else ret false.

Definition OnRead (ec : error_code) (bytes_transferred : nat) (text : string) : M unit :=
  if is_operation_aborted ec then ret tt
  else if failed ec then
    do (RTC_LOG LS_ERROR ("Failed to read: ec=" ++ error_code_text operation_aborted_value ec))
  else
    do (RTC_LOG LS_INFO ("OnRead: text=" ++ text)) ;;
    json_message <- lift (match parse text with
                          | Some v => Json.Ok v
                          | None => Json.Raise Json.system_error
                          end) ;;
    type <- lift (Json.string_at "type" json_message) ;;
    returned <- OnRead_dispatch text json_message type ;;
    if returned : bool then ret tt else DoRead.

Definition OnIceConnectionStateChange (new_state : IceConnectionState) : M unit :=
  do (RTC_LOG LS_INFO ("OnIceConnectionStateChange state:"
                       ++ JsonText.string_of_Z (IceConnectionState_ordinal new_state))) ;;
  do (asio_post (associated_executor (DoIceConnectionStateChange_task new_state))
                (DoIceConnectionStateChange_task new_state)).

Definition OnIceCandidate (sdp_mid : string) (sdp_mlineindex : Z) (sdp : string) : M unit :=
  let json_message :=
    Json.Object [("type", Json.Str "candidate"); ("candidate", Json.Str sdp)] in
  do (Websocket_WriteText (serialize json_message)).

Definition DoIceConnectionStateChange (new_state : IceConnectionState) : M unit :=
  s <- this ;;
  do (RTC_LOG LS_INFO ("DoIceConnectionStateChange: oldState="
                       ++ iceConnectionStateToString (rtc_state_ s)
                       ++ ", newState=" ++ iceConnectionStateToString new_state)) ;;
  modify (with_rtc_state new_state).

(** ** Runs of the client *)

(** What can happen to a client: a call of its interface, a completion of
    the websocket, a callback of the connection, or a posted task being run. *)
Inductive event : Type :=
| Connect_called
| Close_called
| Release_called
| Connect_completed (ec : error_code)
| Read_completed (ec : error_code) (bytes_transferred : nat) (text : string)
| Close_completed (ec : error_code)
| SetOffer_succeeded (n : negotiation)
| CreateAnswer_succeeded (n : negotiation) (sdp : string)
| GetStats_delivered (report : RTCStatsReport)
| IceConnectionState_changed (new_state : IceConnectionState)
| IceCandidate_found (sdp_mid : string) (sdp_mlineindex : Z) (sdp : string)
| Posted_task_run (t : task).

Definition handle (e : event) : M unit :=
  match e with
  | Connect_called => Connect ;; ret tt
  | Close_called => Close
  | Release_called => Release
  | Connect_completed ec => OnConnect ec
  | Read_completed ec n text => OnRead ec n text
  | Close_completed ec => OnClose ec
  | SetOffer_succeeded n => SetOffer_on_success n
  | CreateAnswer_succeeded n sdp => CreateAnswer_on_success n sdp
  | GetStats_delivered report => GetStats_callback report
  | IceConnectionState_changed new_state => OnIceConnectionStateChange new_state
  | IceCandidate_found mid idx sdp => OnIceCandidate mid idx sdp
  | Posted_task_run (DoIceConnectionStateChange_task new_state) =>
      DoIceConnectionStateChange new_state
  end.

(** The events of a list handled in order, up to the first that does not
    return. *)
Fixpoint run (es : list event) : M unit :=
  match es with
  | [] => ret tt
  | e :: rest => handle e ;; run rest
  end.

(** The texts of a list arriving one after the other, each on a successful
    read, up to the first whose handler does not return. *)
Fixpoint read_all (texts : list string) : M unit :=
  match texts with
  | [] => ret tt
  | text :: rest => OnRead success (String.length text) text ;; read_all rest
  end.

(** ** What a list of calls contains *)

Definition is_read (c : call) : bool :=
  match c with Websocket_Read => true | _ => false end.

Definition is_createConnection (c : call) : bool :=
  match c with RTCManager_createConnection _ => true | _ => false end.



Definition count (p : call -> bool) (cs : list call) : nat :=
  List.length (List.filter p cs).

Arguments count p cs : simpl never.

(** The texts written to the websocket, in order. *)
Fixpoint written (cs : list call) : list string :=
  match cs with
  | [] => []
  | Websocket_WriteText t :: rest => t :: written rest
  | _ :: rest => written rest
  end.

(** The member [key] of the block [block] of a message. *)
Definition member_of_block (block key : string) (message : list (string * Json.value))
  : option Json.value :=
  match Json.find block message with
  | Some (Json.Object b) => Json.find key b
  | _ => None
  end.

(** The read loop seen from the websocket: [pending] reads are outstanding;
    a completion is delivered only to an outstanding read, which it uses up,
    and the handler's own reads are added.  The result is the number of
    reads outstanding after each completion. *)
Fixpoint read_loop (completions : list (error_code * string)) (pending : nat)
  (s : SoraSignaling) : list nat :=
  match completions with
  | [] => []
  | (ec, text) :: rest =>
      match pending with
      | O => []
      | S others =>
          let r := OnRead ec (String.length text) text s in
          let pending' := others + count is_read (calls_of r) in
          pending' :: read_loop rest pending' (object_of r)
      end
  end.

(** ** Data of the concrete runs *)

Definition sample_config : SoraSignalingConfig :=
  {| unity_version := "2019.4"; signaling_url := "wss://sora.example.com/signaling";
     channel_id := "sora"; metadata := Json.Null;
     video_codec := "VP9"; video_bitrate := 0;
     audio_codec := "OPUS"; audio_bitrate := 0;
     role := Sendonly; multistream := false; insecure := false |}.

Definition tuned_config : SoraSignalingConfig :=
  {| unity_version := "2019.4"; signaling_url := "ws://sora.example.com/signaling";
     channel_id := "sora"; metadata := Json.Object [("key", Json.Str "secret")];
     video_codec := "H264"; video_bitrate := 500;
     audio_codec := "OPUS"; audio_bitrate := 64;
     role := Recvonly; multistream := true; insecure := false |}.

(** A client just made by [Create], with a notify callback. *)
Definition fresh_client : SoraSignaling := SoraSignaling_new 0 sample_config true.

Definition sample_connection : RTCConnection :=
  {| conn_id := 0;
     conn_config :=
       {| servers := [{| uri := "turn:t.example.com"; username := "u"; password := "p" |}] |} |}.

(** A client whose websocket is open: the handshake has completed and no
    offer has arrived yet. *)
Definition opened_client : SoraSignaling :=
  {| manager_ := 0; config_ := sample_config; on_notify_ := true;
     ws_ := Some {| ssl := true; ws_insecure := false |};
     connection_ := None;
     parts_ := {| scheme := ""; host := ""; port := "" |};
     rtc_state_ := kIceConnectionNew; connected_ := true |}.

(** A client in a session: the websocket is open, an offer was handled and
    the connection reported [kIceConnectionConnected]. *)
Definition connected_client : SoraSignaling :=
  {| manager_ := 1; config_ := sample_config; on_notify_ := true;
     ws_ := Some {| ssl := true; ws_insecure := false |};
     connection_ := Some sample_connection;
     parts_ := {| scheme := ""; host := ""; port := "" |};
     rtc_state_ := kIceConnectionConnected; connected_ := true |}.

Definition offer_text : string :=
  dq ("{'type':'offer','config':{'iceServers':"
      ++ "[{'urls':['turn:t.example.com'],'username':'u','credential':'p'}]"
      ++ "},'sdp':'v=0'}").
Definition second_offer_text : string :=
  dq "{'type':'offer','config':{'iceServers':[]},'sdp':'v=0 again'}".
Definition update_text : string :=
  dq "{'type':'update','sdp':'v=0 more'}".
Definition update_without_sdp_text : string :=
  dq "{'type':'update'}".
Definition notify_text : string :=
  dq "{'type':'notify','event_type':'foo'}".
Definition ping_text : string :=
  dq "{'type':'ping'}".
Definition ping_stats_text : string :=
  dq "{'type':'ping','stats':true}".
Definition ping_no_stats_text : string :=
  dq "{'type':'ping','stats':false}".
Definition ping_odd_stats_text : string :=
  dq "{'type':'ping','stats':1}".
Definition unknown_text : string :=
  dq "{'type':'push','data':1}".
Definition malformed_text : string :=
  dq "{'type':'ping'".
Definition sample_report : RTCStatsReport := {| ToJson := dq "[{'id':'T01'}]" |}.

(** A text arriving on the websocket. *)
Definition received (text : string) : event :=
  Read_completed success (String.length text) text.

(** The control channel is opened. *)
Definition opened : list event := [Connect_called; Connect_completed success].

(** The session is negotiated: the offer is answered and the connection
    reports [kIceConnectionConnected]. *)
Definition negotiated : list event :=
  (opened ++
   [received offer_text; SetOffer_succeeded ForOffer;
    CreateAnswer_succeeded ForOffer "v=0 answer";
    IceConnectionState_changed kIceConnectionConnected;
    Posted_task_run (DoIceConnectionStateChange_task kIceConnectionConnected)])%list.

(** ** Further runs, and the wire form of an ICE configuration *)

(** The state-change callbacks of a list of states, in order. *)
Fixpoint state_changes (states : list IceConnectionState) : M unit :=
  match states with
  | [] => ret tt
  | new_state :: rest => OnIceConnectionStateChange new_state ;; state_changes rest
  end.

(** The tasks handed to [boost::asio::post], in order. *)
Fixpoint posted (cs : list call) : list task :=
  match cs with
  | [] => []
  | asio_post _ t :: rest => t :: posted rest
  | _ :: rest => posted rest
  end.

Definition run_task (t : task) : M unit :=
  match t with
  | DoIceConnectionStateChange_task new_state => DoIceConnectionStateChange new_state
  end.

(** Posted tasks run in the order of the list. *)
Fixpoint run_tasks (ts : list task) : M unit :=
  match ts with
  | [] => ret tt
  | t :: rest => run_task t ;; run_tasks rest
  end.






Definition state_of_task (t : task) : IceConnectionState :=
  match t with DoIceConnectionStateChange_task new_state => new_state end.

Definition is_posted_task_run (e : event) : bool :=
  match e with Posted_task_run _ => true | _ => false end.

(** The calls that construct or open a websocket. *)
Definition opens_websocket (c : call) : bool :=
  match c with
  | Websocket_new _ | Websocket_Connect _ => true
  | _ => false
  end.

Definition is_write (c : call) : bool :=
  match c with Websocket_WriteText _ => true | _ => false end.

(** One element of ["iceServers"] as the server sends it. *)
Record ice_block : Type := {
  block_urls : list string;
  block_username : string;
  block_credential : string
}.

Definition jserver_of (b : ice_block) : Json.value :=
  Json.Object [("urls", Json.Array (List.map Json.Str (block_urls b)));
               ("username", Json.Str (block_username b));
               ("credential", Json.Str (block_credential b))].

Definition jconfig_of (blocks : list ice_block) : Json.value :=
  Json.Object [("iceServers", Json.Array (List.map jserver_of blocks))].

(** The servers [CreatePeerFromConfig] is to make of a block: one per url. *)
Definition servers_of_block (b : ice_block) : list IceServer :=
  List.map (fun url => {| uri := Json.c_str url;
                          username := Json.c_str (block_username b);
                          password := Json.c_str (block_credential b) |})
           (block_urls b).

(** No NUL character in the string. *)
Fixpoint no_nul (s : string) : bool :=
  match s with
  | EmptyString => true
  | String c r => negb (Ascii.eqb c Ascii.zero) && no_nul r
  end.


(** ** Further data of the concrete runs *)

Definition with_signaling_url (url : string) (c : SoraSignalingConfig) : SoraSignalingConfig :=
  {| unity_version := unity_version c; signaling_url := url;
     channel_id := channel_id c; metadata := metadata c;
     video_codec := video_codec c; video_bitrate := video_bitrate c;
     audio_codec := audio_codec c; audio_bitrate := audio_bitrate c;
     role := role c; multistream := multistream c; insecure := insecure c |}.

(** Clients just made: for a plain websocket, with a URL that has no
    scheme, and with a scheme that is not a websocket's. *)
Definition plain_client : SoraSignaling := SoraSignaling_new 0 tuned_config false.
Definition schemeless_client : SoraSignaling :=
  SoraSignaling_new 0 (with_signaling_url "sora.example.com/signaling" sample_config) true.
Definition http_client : SoraSignaling :=
  SoraSignaling_new 0 (with_signaling_url "http://sora.example.com/signaling" sample_config)
                    true.

Definition offer_bad_config_text : string :=
  dq "{'type':'offer','config':{'iceServers':[{'urls':['turn:t.example.com']}]},'sdp':'v=0'}".
Definition offer_without_config_text : string :=
  dq "{'type':'offer','sdp':'v=0'}".
Definition offer_without_sdp_text : string :=
  dq "{'type':'offer','config':{'iceServers':[]}}".
Definition spaced_notify_text : string :=
  dq " { 'type' : 'notify' , 'event_type' : 'foo' } ".

Definition sample_blocks : list ice_block :=
  [{| block_urls := ["turn:a.example.com"; "turns:a.example.com"];
      block_username := "u1"; block_credential := "p1" |};
   {| block_urls := []; block_username := "u2"; block_credential := "p2" |};
   {| block_urls := ["stun:b.example.com"]; block_username := "u3";
      block_credential := "p3" |}].

(** A ping and an update whose strings carry a NUL and a tail. *)
Definition ping_with_nul_text : string := dq "{'type':'ping\u0000pong'}".
Definition update_with_nul_text : string :=
  dq "{'type':'update\u0000d','sdp':'v=0\u0000 more'}".

(** ** Properties *)

Lemma IceConnectionState_eqb_eq (a b : IceConnectionState) :
  IceConnectionState_eqb a b = true <-> a = b.
Proof.
  split.
  - destruct a, b; simpl; intros H; try reflexivity; discriminate H.
  - intros ->. destruct b; reflexivity.
Qed.

Lemma IceConnectionState_eqb_neq (a b : IceConnectionState) :
  IceConnectionState_eqb a b = false <-> a <> b.
Proof.
  split.
  - intros H E. apply IceConnectionState_eqb_eq in E. congruence.
  - intros H. destruct (IceConnectionState_eqb a b) eqn:E; [|reflexivity].
    apply IceConnectionState_eqb_eq in E. contradiction.
Qed.

(** C4. The accessor [getRTCConnection] hands out [connection_] exactly when
    [rtc_state_] is [kIceConnectionConnected]; in every other state,
    [kIceConnectionCompleted] among them, it returns none. *)
Theorem getRTCConnection_only_when_connected (s : SoraSignaling) :
  (rtc_state_ s = kIceConnectionConnected -> getRTCConnection s = connection_ s) /\
  (rtc_state_ s <> kIceConnectionConnected -> getRTCConnection s = None) /\
  (forall c, getRTCConnection s = Some c <->
             rtc_state_ s = kIceConnectionConnected /\ connection_ s = Some c).
Proof using.
  unfold getRTCConnection.
  destruct (IceConnectionState_eqb (rtc_state_ s) kIceConnectionConnected) eqn:E.
  - apply IceConnectionState_eqb_eq in E.
    split; [reflexivity | split].
    + intros H. exfalso. exact (H E).
    + intros c. split; [intros H; split; [exact E | exact H] | intros [_ H]; exact H].
  - apply IceConnectionState_eqb_neq in E.
    split; [| split; [reflexivity | intros c]].
    + intros H. exfalso. exact (E H).
    + split; [discriminate | intros [H _]; exfalso; exact (E H)].
Qed.

(** C8. [Release] sets [connection_] to none and changes no other member; a
    second [Release] returns the same object and makes no call. *)
Theorem Release_detaches_once (s : SoraSignaling) :
  ending_of (Release s) = Returned tt /\
  object_of (Release s) = with_connection None s /\
  connection_ (object_of (Release s)) = None /\
  (manager_ (object_of (Release s)) = manager_ s /\
   config_ (object_of (Release s)) = config_ s /\
   on_notify_ (object_of (Release s)) = on_notify_ s /\
   ws_ (object_of (Release s)) = ws_ s /\
   parts_ (object_of (Release s)) = parts_ s /\
   rtc_state_ (object_of (Release s)) = rtc_state_ s /\
   connected_ (object_of (Release s)) = connected_ s) /\
  Release (object_of (Release s)) = (Returned tt, object_of (Release s), []).
Proof.
  unfold Release, assign_connection, ending_of, object_of; simpl.
  repeat split.
Qed.

(** C6. [Connect] on a client whose [connected_] is set returns false at
    once: the object is unchanged and the only call made is the function's
    first log line, so no websocket is constructed or opened and nothing is
    written. *)
Theorem Connect_when_connected (s : SoraSignaling) :
  connected_ s = true ->
  Connect s = (Returned false, s, [RTC_LOG LS_INFO "Connect"]).
Proof.
  intros H. unfold Connect, bind, do, this. simpl. rewrite H. reflexivity.
Qed.

(** *** The read handler, case by case *)

Lemma OnRead_aborted (s : SoraSignaling) (n : nat) (text : string) :
  OnRead operation_aborted n text s = (Returned tt, s, []).
Proof. reflexivity. Qed.

Lemma OnRead_failed (s : SoraSignaling) (n : nat) (text what : string) :
  OnRead (failure what) n text s
  = (Returned tt, s, [RTC_LOG LS_ERROR ("Failed to read: ec=" ++ what)]).
Proof. reflexivity. Qed.

Lemma OnRead_malformed (s : SoraSignaling) (n : nat) (text : string) :
  parse text = None ->
  OnRead success n text s
  = (Threw Json.system_error, s, [RTC_LOG LS_INFO ("OnRead: text=" ++ text)]).
Proof.
  intros H. unfold OnRead, bind, do, lift; simpl. rewrite H. reflexivity.
Qed.

Lemma OnRead_untyped (s : SoraSignaling) (n : nat) (text : string)
  (json_message : Json.value) (e : Json.exception) :
  parse text = Some json_message ->
  Json.string_at "type" json_message = Json.Raise e ->
  OnRead success n text s = (Threw e, s, [RTC_LOG LS_INFO ("OnRead: text=" ++ text)]).
Proof.
  intros H T. unfold OnRead, bind, do, lift; simpl. rewrite H, T. reflexivity.
Qed.

(** A message with a type goes through the dispatch; the next read follows
    when the dispatch returns without having left the function. *)
Lemma OnRead_typed (s : SoraSignaling) (n : nat) (text : string)
  (json_message : Json.value) (type : string) :
  parse text = Some json_message ->
  Json.string_at "type" json_message = Json.Ok type ->
  OnRead success n text s
  = match OnRead_dispatch text json_message type s with
    | (Returned returned, s', cs) =>
        (Returned tt, s',
         RTC_LOG LS_INFO ("OnRead: text=" ++ text)
           :: (cs ++ (if returned : bool then [] else [Websocket_Read]))%list)
    | (Threw e, s', cs) => (Threw e, s', RTC_LOG LS_INFO ("OnRead: text=" ++ text) :: cs)
    | (NullConnection, s', cs) =>
        (NullConnection, s', RTC_LOG LS_INFO ("OnRead: text=" ++ text) :: cs)
    end.
Proof.
  intros H T. unfold OnRead, bind, do, lift; simpl. rewrite H, T.
  destruct (OnRead_dispatch text json_message type s) as [[[returned | e | ] s'] cs];
    try reflexivity.
  destruct returned; reflexivity.
Qed.


Ltac run_member :=
  unfold OnRead_dispatch, CreatePeerFromConfig, createConnection, assign_connection,
    deref_connection, DoSendPong, DoRead, bind, do, lift, this, modify, ret, released;
  simpl.

(** Case analysis on an innermost scrutinee of the goal. *)
Ltac split_on_scrutinee :=
  match goal with
  | |- context [match ?x with _ => _ end] =>
      lazymatch x with
      | context [match _ with _ => _ end] => fail
      | _ => destruct x eqn:?
      end
  end.

Lemma dispatch_offer (s : SoraSignaling) (text : string) (json_message jconfig : Json.value)
  (rtc_config : RTCConfiguration) (sdp : string) :
  Json.at_ "config" json_message = Json.Ok jconfig ->
  rtc_config_of jconfig = Json.Ok rtc_config ->
  Json.string_at "sdp" json_message = Json.Ok sdp ->
  OnRead_dispatch text json_message "offer" s
  = match RTCManager_creates (manager_ s) rtc_config with
    | Some c =>
        (Returned false, with_connection (Some c) (with_manager (S (manager_ s)) s),
         (RTCManager_createConnection rtc_config :: released s
            ++ [RTCConnection_SetOffer c sdp ForOffer])%list)
    | None =>
        (NullConnection, with_connection None (with_manager (S (manager_ s)) s),
         RTCManager_createConnection rtc_config :: released s)
    end.
Proof.
  intros C R S. run_member. rewrite C. simpl. rewrite R. simpl. rewrite S. simpl.
  destruct (RTCManager_creates (manager_ s) rtc_config), (connection_ s); reflexivity.
Qed.

Lemma dispatch_update (s : SoraSignaling) (text : string) (json_message : Json.value)
  (sdp : string) :
  Json.string_at "sdp" json_message = Json.Ok sdp ->
  OnRead_dispatch text json_message "update" s
  = match connection_ s with
    | Some c => (Returned false, s, [RTCConnection_SetOffer c sdp ForUpdate])
    | None => (NullConnection, s, [])
    end.
Proof.
  intros S. run_member. rewrite S. destruct (connection_ s); reflexivity.
Qed.

Lemma dispatch_notify (s : SoraSignaling) (text : string) (json_message : Json.value) :
  OnRead_dispatch text json_message "notify" s
  = (Returned false, s, if on_notify_ s then [on_notify text] else []).
Proof.
  run_member. destruct (on_notify_ s); reflexivity.
Qed.

Lemma dispatch_ping_not_connected (s : SoraSignaling) (text : string)
  (json_message : Json.value) :
  rtc_state_ s <> kIceConnectionConnected ->
  OnRead_dispatch text json_message "ping" s = (Returned true, s, [Websocket_Read]).
Proof.
  intros H. apply IceConnectionState_eqb_neq in H. run_member. rewrite H. reflexivity.
Qed.

Lemma dispatch_ping_stats (s : SoraSignaling) (text : string)
  (members : list (string * Json.value)) :
  rtc_state_ s = kIceConnectionConnected ->
  Json.find "stats" members = Some (Json.Bool true) ->
  OnRead_dispatch text (Json.Object members) "ping" s
  = match connection_ s with
    | Some c => (Returned false, s, [RTCConnection_GetStats c])
    | None => (NullConnection, s, [])
    end.
Proof.
  intros H F. run_member. rewrite H, F. simpl. destruct (connection_ s); reflexivity.
Qed.

Lemma dispatch_ping_bare (s : SoraSignaling) (text : string)
  (members : list (string * Json.value)) :
  rtc_state_ s = kIceConnectionConnected ->
  Json.find "stats" members = None \/ Json.find "stats" members = Some (Json.Bool false) ->
  OnRead_dispatch text (Json.Object members) "ping" s
  = (Returned false, s,
     [Websocket_WriteText (serialize (Json.Object [("type", Json.Str "pong")]))]).
Proof.
  intros H [F | F]; run_member; rewrite H, F; reflexivity.
Qed.

Lemma dispatch_other (s : SoraSignaling) (text : string) (json_message : Json.value)
  (type : string) :
  type <> "offer" -> type <> "update" -> type <> "notify" -> type <> "ping" ->
  OnRead_dispatch text json_message type s = (Returned false, s, []).
Proof.
  intros O U N P. unfold OnRead_dispatch.
  apply String.eqb_neq in O, U, N, P. rewrite O, U, N, P. reflexivity.
Qed.

(** What no branch of the dispatch does, however it ends: it issues a read
    only on the path that then leaves the function, it never touches
    [rtc_state_] or [connected_], and it leaves the whole object alone unless
    the message is an offer. *)
Lemma dispatch_frame (s : SoraSignaling) (text : string) (json_message : Json.value)
  (type : string) :
  let r := OnRead_dispatch text json_message type s in
  rtc_state_ (object_of r) = rtc_state_ s /\
  connected_ (object_of r) = connected_ s /\
  (type <> "offer" ->
   object_of r = s /\ count is_createConnection (calls_of r) = 0) /\
  count is_read (calls_of r)
  = match ending_of r with Returned true => 1 | _ => 0 end /\
  (ending_of r <> Returned false -> written (calls_of r) = []).
Proof.
  unfold OnRead_dispatch.
  destruct (String.eqb_spec type "offer") as [-> | O];
    [| destruct (String.eqb_spec type "update") as [-> | U];
       [| destruct (String.eqb_spec type "notify") as [-> | N];
          [| destruct (String.eqb_spec type "ping") as [-> | P] ]]];
    run_member; unfold object_of, calls_of, ending_of;
    repeat (split_on_scrutinee; simpl);
    (split; [reflexivity | split; [reflexivity | split; [| split]]]);
    try reflexivity; try congruence; try (intros _; split; reflexivity).
Qed.


Lemma count_cons (p : call -> bool) (c : call) (cs : list call) :
  count p (c :: cs) = (if p c then 1 else 0) + count p cs.
Proof.
  unfold count. simpl. destruct (p c); reflexivity.
Qed.

Lemma count_app (p : call -> bool) (a b : list call) :
  count p (a ++ b)%list = count p a + count p b.
Proof.
  unfold count. rewrite List.filter_app, List.length_app. reflexivity.
Qed.

(** The reads a completed read issues: one when the handler of a successful
    read returns, none otherwise. *)
Lemma OnRead_reads (s : SoraSignaling) (ec : error_code) (n : nat) (text : string) :
  count is_read (calls_of (OnRead ec n text s))
  = match ending_of (OnRead ec n text s) with
    | Returned _ => if failed ec then 0 else 1
    | _ => 0
    end.
Proof.
  destruct ec as [| | what]; [| reflexivity | reflexivity].
  destruct (parse text) as [json_message |] eqn:P;
    [| rewrite (OnRead_malformed s n text P); reflexivity].
  destruct (Json.string_at "type" json_message) as [type | e] eqn:T;
    [| rewrite (OnRead_untyped s n text json_message e P T); reflexivity].
  rewrite (OnRead_typed s n text json_message type P T).
  pose proof (dispatch_frame s text json_message type) as F. simpl in F.
  destruct F as (_ & _ & _ & R & _).
  destruct (OnRead_dispatch text json_message type s) as [[[returned | e | ] s'] cs];
    unfold calls_of, ending_of, object_of in *; simpl in *.
  - rewrite count_cons, count_app, R. destruct returned; reflexivity.
  - rewrite count_cons. exact R.
  - rewrite count_cons. exact R.
Qed.

(** What a completed read leaves alone, however its handler ends. *)
Lemma OnRead_frame (s : SoraSignaling) (ec : error_code) (n : nat) (text : string) :
  let r := OnRead ec n text s in
  rtc_state_ (object_of r) = rtc_state_ s /\
  connected_ (object_of r) = connected_ s /\
  ((forall json_message, parse text = Some json_message ->
      Json.string_at "type" json_message <> Json.Ok "offer") ->
   object_of r = s /\ count is_createConnection (calls_of r) = 0) /\
  (ending_of r <> Returned tt -> written (calls_of r) = []).
Proof.
  destruct ec as [| | what];
    [| simpl; repeat split; intros H; congruence
     | simpl; repeat split; intros H; congruence].
  destruct (parse text) as [json_message |] eqn:P;
    [| rewrite (OnRead_malformed s n text P); simpl; repeat split].
  destruct (Json.string_at "type" json_message) as [type | e] eqn:T;
    [| rewrite (OnRead_untyped s n text json_message e P T); simpl; repeat split].
  rewrite (OnRead_typed s n text json_message type P T).
  pose proof (dispatch_frame s text json_message type) as F. simpl in F.
  destruct F as (R & C & O & _ & W).
  destruct (OnRead_dispatch text json_message type s) as [[[returned | e | ] s'] cs];
    unfold calls_of, ending_of, object_of in *; simpl in *;
    (split; [exact R | split; [exact C | split]]).
  - intros H.
    assert (N : type <> "offer") by (intros ->; exact (H json_message eq_refl T)).
    destruct (O N) as [-> K]. split; [reflexivity |].
    rewrite count_cons, count_app, K. destruct returned; reflexivity.
  - intros H; exfalso; apply H; reflexivity.
  - intros H.
    assert (N : type <> "offer") by (intros ->; exact (H json_message eq_refl T)).
    destruct (O N) as [-> K]. split; [reflexivity | rewrite count_cons; exact K].
  - intros _. apply W. discriminate.
  - intros H.
    assert (N : type <> "offer") by (intros ->; exact (H json_message eq_refl T)).
    destruct (O N) as [-> K]. split; [reflexivity | rewrite count_cons; exact K].
  - intros _. apply W. discriminate.
Qed.


Lemma OnRead_reads_le (s : SoraSignaling) (ec : error_code) (n : nat) (text : string) :
  count is_read (calls_of (OnRead ec n text s)) <= 1.
Proof.
  rewrite OnRead_reads.
  destruct (ending_of (OnRead ec n text s)); [destruct (failed ec) | |]; lia.
Qed.

Lemma read_loop_bounded (completions : list (error_code * string)) :
  forall (pending : nat) (s : SoraSignaling),
    pending <= 1 ->
    Forall (fun outstanding => outstanding <= 1) (read_loop completions pending s).
Proof.
  induction completions as [| [ec text] rest IH]; intros pending s H; simpl.
  - constructor.
  - destruct pending as [| others]; [constructor |].
    assert (B : others + count is_read (calls_of (OnRead ec (String.length text) text s)) <= 1).
    { pose proof (OnRead_reads_le s ec (String.length text) text). lia. }
    constructor; [exact B | apply IH; exact B].
Qed.

Lemma read_all_without_offer (texts : list string) :
  forall s : SoraSignaling,
    Forall (fun text => forall json_message, parse text = Some json_message ->
                          Json.string_at "type" json_message <> Json.Ok "offer") texts ->
    object_of (read_all texts s) = s /\
    count is_createConnection (calls_of (read_all texts s)) = 0.
Proof.
  induction texts as [| text rest IH]; intros s H; simpl.
  - split; reflexivity.
  - inversion H as [| ? ? Hd Tl]; subst.
    destruct (OnRead_frame s success (String.length text) text) as (_ & _ & F & _).
    destruct (F Hd) as [O K]. unfold bind.
    destruct (OnRead success (String.length text) text s) as [[e s1] c1].
    unfold object_of, calls_of in O, K; simpl in O, K. subst s1.
    destruct e as [[] | e |]; [| split; [reflexivity | exact K] | split; [reflexivity | exact K]].
    destruct (IH s Tl) as [O' K'].
    destruct (read_all rest s) as [[e2 s2] c2].
    unfold object_of, calls_of in *; simpl in *.
    split; [exact O' | rewrite count_app, K, K'; reflexivity].
Qed.

(** *** The claims about the read handler *)

(** C1, as the code has it.  A ping read while [rtc_state_] is not
    [kIceConnectionConnected] only issues the next read.  While it is
    [kIceConnectionConnected]: a ping with ["stats": true], when
    [connection_] holds a connection, asks that connection for its
    statistics, writes nothing yet and issues the next read, and the
    statistics callback then writes exactly one pong that embeds the report;
    a ping whose ["stats"] is absent or false writes exactly one pong with
    the single member ["type"] and issues the next read. *)
Theorem ping_answered_when_connected (s : SoraSignaling) (n : nat) (text : string)
  (members : list (string * Json.value)) :
  parse text = Some (Json.Object members) ->
  Json.string_at "type" (Json.Object members) = Json.Ok "ping" ->
  (rtc_state_ s <> kIceConnectionConnected ->
   OnRead success n text s
   = (Returned tt, s, [RTC_LOG LS_INFO ("OnRead: text=" ++ text); Websocket_Read])) /\
  (rtc_state_ s = kIceConnectionConnected ->
   Json.find "stats" members = Some (Json.Bool true) ->
   forall c, connection_ s = Some c ->
   OnRead success n text s
   = (Returned tt, s,
      [RTC_LOG LS_INFO ("OnRead: text=" ++ text); RTCConnection_GetStats c;
       Websocket_Read]) /\
   forall (s' : SoraSignaling) (report : RTCStatsReport),
     GetStats_callback report s'
     = (Returned tt, s',
        [Websocket_WriteText (dq "{'type':'pong','stats':" ++ ToJson report ++ "}")])) /\
  (rtc_state_ s = kIceConnectionConnected ->
   Json.find "stats" members = None \/ Json.find "stats" members = Some (Json.Bool false) ->
   OnRead success n text s
   = (Returned tt, s,
      [RTC_LOG LS_INFO ("OnRead: text=" ++ text);
       Websocket_WriteText (serialize (Json.Object [("type", Json.Str "pong")]));
       Websocket_Read]) /\
   Json.find "stats" [("type", Json.Str "pong")] = None).
Proof.
  intros P T. rewrite (OnRead_typed s n text _ "ping" P T).
  split; [| split].
  - intros H. rewrite dispatch_ping_not_connected by exact H. reflexivity.
  - intros H F c C. split; [| reflexivity].
    rewrite (dispatch_ping_stats s text members H F), C. reflexivity.
  - intros H F. split; [| reflexivity].
    rewrite (dispatch_ping_bare s text members H F). reflexivity.
Qed.

(** C2, as the code has it.  [connection_] holds at most one connection.  A
    completed read whose message is not an offer leaves [connection_] as it
    was and makes no connection, and so does any sequence of such reads; an
    update hands its sdp to the connection held.  Every offer whose config
    and sdp decode asks the manager for a new connection and assigns what
    the manager returns to [connection_], giving up the connection held
    before; the sdp goes to the new connection. *)
Theorem offer_makes_connection (s : SoraSignaling) (ec : error_code) (n : nat)
  (text : string) :
  ((forall json_message, parse text = Some json_message ->
      Json.string_at "type" json_message <> Json.Ok "offer") ->
   connection_ (object_of (OnRead ec n text s)) = connection_ s /\
   count is_createConnection (calls_of (OnRead ec n text s)) = 0) /\
  (forall texts,
     Forall (fun text => forall json_message, parse text = Some json_message ->
                           Json.string_at "type" json_message <> Json.Ok "offer") texts ->
     connection_ (object_of (read_all texts s)) = connection_ s /\
     count is_createConnection (calls_of (read_all texts s)) = 0) /\
  (forall json_message c sdp,
     parse text = Some json_message ->
     Json.string_at "type" json_message = Json.Ok "update" ->
     Json.string_at "sdp" json_message = Json.Ok sdp ->
     connection_ s = Some c ->
     OnRead success n text s
     = (Returned tt, s,
        [RTC_LOG LS_INFO ("OnRead: text=" ++ text); RTCConnection_SetOffer c sdp ForUpdate;
         Websocket_Read])) /\
  (forall json_message jconfig rtc_config sdp,
     parse text = Some json_message ->
     Json.string_at "type" json_message = Json.Ok "offer" ->
     Json.at_ "config" json_message = Json.Ok jconfig ->
     rtc_config_of jconfig = Json.Ok rtc_config ->
     Json.string_at "sdp" json_message = Json.Ok sdp ->
     OnRead success n text s
     = match RTCManager_creates (manager_ s) rtc_config with
       | Some c =>
           (Returned tt, with_connection (Some c) (with_manager (S (manager_ s)) s),
            (RTC_LOG LS_INFO ("OnRead: text=" ++ text)
               :: RTCManager_createConnection rtc_config
               :: released s
               ++ [RTCConnection_SetOffer c sdp ForOffer; Websocket_Read])%list)
       | None =>
           (NullConnection, with_connection None (with_manager (S (manager_ s)) s),
            RTC_LOG LS_INFO ("OnRead: text=" ++ text)
              :: RTCManager_createConnection rtc_config
              :: released s)
       end).
Proof.
  split; [| split; [| split]].
  - intros H. destruct (OnRead_frame s ec n text) as (_ & _ & F & _).
    destruct (F H) as [-> K]. split; [reflexivity | exact K].
  - intros texts H. destruct (read_all_without_offer texts s H) as [-> K].
    split; [reflexivity | exact K].
  - intros json_message c sdp P T S C.
    rewrite (OnRead_typed s n text _ _ P T), (dispatch_update s text _ sdp S), C.
    reflexivity.
  - intros json_message jconfig rtc_config sdp P T C R S.
    rewrite (OnRead_typed s n text _ _ P T), (dispatch_offer s text _ _ _ _ C R S).
    destruct (RTCManager_creates (manager_ s) rtc_config); [| reflexivity].
    simpl. rewrite <- List.app_assoc. reflexivity.
Qed.

(** C3, as the code has it.  A text that is not JSON, or whose ["type"] is
    missing or not a string, makes the handler throw with the object
    unchanged and only the log line made.  Whenever the handler of a
    successful read throws, no next read is issued and nothing is written,
    [rtc_state_] and [connected_] are unchanged, and the object is unchanged
    unless the message is an offer. *)
Theorem decode_failure_leaves_handler (s : SoraSignaling) (n : nat) (text : string) :
  (parse text = None ->
   OnRead success n text s
   = (Threw Json.system_error, s, [RTC_LOG LS_INFO ("OnRead: text=" ++ text)])) /\
  (forall json_message e,
     parse text = Some json_message ->
     Json.string_at "type" json_message = Json.Raise e ->
     OnRead success n text s
     = (Threw e, s, [RTC_LOG LS_INFO ("OnRead: text=" ++ text)])) /\
  (forall e,
     ending_of (OnRead success n text s) = Threw e ->
     count is_read (calls_of (OnRead success n text s)) = 0 /\
     written (calls_of (OnRead success n text s)) = [] /\
     rtc_state_ (object_of (OnRead success n text s)) = rtc_state_ s /\
     connected_ (object_of (OnRead success n text s)) = connected_ s /\
     ((forall json_message, parse text = Some json_message ->
         Json.string_at "type" json_message <> Json.Ok "offer") ->
      object_of (OnRead success n text s) = s)).
Proof.
  split; [| split].
  - apply OnRead_malformed.
  - intros json_message e. apply OnRead_untyped.
  - intros e E. pose proof (OnRead_reads s success n text) as R.
    destruct (OnRead_frame s success n text) as (A & B & C & D).
    rewrite E in R. repeat split; try assumption.
    + apply D. rewrite E. discriminate.
    + intros H. apply (C H).
Qed.

(** C5, as the code has it.  A read completed with [operation_aborted] makes
    no call at all; one completed with another error makes the error log
    line and no read.  After a successful read the handler issues exactly
    one read when it returns -- also for a ping before
    [kIceConnectionConnected] and for a type it does not know -- and none
    when it ends by a thrown exception or on a null [connection_].  So a
    read loop started with one read never has two outstanding. *)
Theorem one_read_per_completed_read (s : SoraSignaling) (n : nat) (text : string) :
  OnRead operation_aborted n text s = (Returned tt, s, []) /\
  (forall what,
     OnRead (failure what) n text s
     = (Returned tt, s, [RTC_LOG LS_ERROR ("Failed to read: ec=" ++ what)])) /\
  (ending_of (OnRead success n text s) = Returned tt ->
   count is_read (calls_of (OnRead success n text s)) = 1) /\
  (ending_of (OnRead success n text s) <> Returned tt ->
   count is_read (calls_of (OnRead success n text s)) = 0) /\
  (forall json_message,
     parse text = Some json_message ->
     Json.string_at "type" json_message = Json.Ok "ping" ->
     rtc_state_ s <> kIceConnectionConnected ->
     OnRead success n text s
     = (Returned tt, s, [RTC_LOG LS_INFO ("OnRead: text=" ++ text); Websocket_Read])) /\
  (forall json_message type,
     parse text = Some json_message ->
     Json.string_at "type" json_message = Json.Ok type ->
     type <> "offer" -> type <> "update" -> type <> "notify" -> type <> "ping" ->
     OnRead success n text s
     = (Returned tt, s, [RTC_LOG LS_INFO ("OnRead: text=" ++ text); Websocket_Read])) /\
  (forall completions s0,
     Forall (fun outstanding => outstanding <= 1) (read_loop completions 1 s0)).
Proof.
  pose proof (OnRead_reads s success n text) as R. simpl in R.
  split; [apply OnRead_aborted | split; [intros what; apply OnRead_failed |]].
  repeat split.
  - intros E. rewrite E in R. exact R.
  - intros E. destruct (ending_of (OnRead success n text s)) as [[] | e |];
      [exfalso; apply E; reflexivity | exact R | exact R].
  - intros json_message P T H.
    rewrite (OnRead_typed s n text _ _ P T), dispatch_ping_not_connected by exact H.
    reflexivity.
  - intros json_message type P T O U N G.
    rewrite (OnRead_typed s n text _ _ P T), (dispatch_other s text _ type O U N G).
    reflexivity.
  - intros completions s0. apply read_loop_bounded. lia.
Qed.



(** C10. The update branch of the read handler dereferences [connection_]
    without testing it.  With a connection held, the sdp goes to that
    connection and the next read is issued; with none held the handler ends
    on the null dereference, after the log line only, and that is the only
    way for it to end so.  No connection is held by a client just made, nor
    by any client after [Release]. *)
Theorem update_dereferences_connection (s : SoraSignaling) (n : nat) (text : string)
  (members : list (string * Json.value)) (sdp : string) :
  parse text = Some (Json.Object members) ->
  Json.string_at "type" (Json.Object members) = Json.Ok "update" ->
  Json.string_at "sdp" (Json.Object members) = Json.Ok sdp ->
  (forall c, connection_ s = Some c ->
     OnRead success n text s
     = (Returned tt, s,
        [RTC_LOG LS_INFO ("OnRead: text=" ++ text); RTCConnection_SetOffer c sdp ForUpdate;
         Websocket_Read])) /\
  (connection_ s = None ->
     OnRead success n text s
     = (NullConnection, s, [RTC_LOG LS_INFO ("OnRead: text=" ++ text)])) /\
  (ending_of (OnRead success n text s) = NullConnection <-> connection_ s = None) /\
  (forall manager config notify,
     connection_ (SoraSignaling_new manager config notify) = None) /\
  connection_ (object_of (Release s)) = None.
Proof.
  intros P T S.
  rewrite (OnRead_typed s n text _ _ P T), (dispatch_update s text _ sdp S).
  repeat split.
  - intros c C. rewrite C. reflexivity.
  - intros C. rewrite C. reflexivity.
  - destruct (connection_ s); [discriminate | reflexivity].
  - intros C. rewrite C. reflexivity.
Qed.

(** *** The connect message *)

(** C7. [DoSendConnect] writes one text, the serialised connect message.
    The message always has type, role, multistream, channel_id, sora_client,
    libwebrtc and environment, and a video and an audio block with
    codec_type.  It has metadata exactly when the configured metadata is not
    null, and a block has bit_rate exactly when the configured bitrate is
    not zero, with that bitrate as its value. *)
Theorem connect_message_members (s : SoraSignaling) :
  DoSendConnect s
  = (Returned tt, s,
     [Websocket_WriteText (serialize (Json.Object (connect_message (config_ s))))]) /\
  Json.find "type" (connect_message (config_ s)) = Some (Json.Str "connect") /\
  Json.find "role" (connect_message (config_ s))
  = Some (Json.Str (role_string (role (config_ s)))) /\
  Json.find "multistream" (connect_message (config_ s))
  = Some (Json.Bool (multistream (config_ s))) /\
  Json.find "channel_id" (connect_message (config_ s))
  = Some (Json.Str (channel_id (config_ s))) /\
  Json.find "sora_client" (connect_message (config_ s)) = Some (Json.Str SORA_CLIENT) /\
  Json.find "libwebrtc" (connect_message (config_ s)) = Some (Json.Str LIBWEBRTC) /\
  Json.find "environment" (connect_message (config_ s))
  = Some (Json.Str ("Unity " ++ unity_version (config_ s) ++ " for "
                    ++ SORA_UNITY_SDK_PLATFORM)) /\
  Json.find "metadata" (connect_message (config_ s))
  = (if Json.is_null (metadata (config_ s)) then None else Some (metadata (config_ s))) /\
  member_of_block "video" "codec_type" (connect_message (config_ s))
  = Some (Json.Str (video_codec (config_ s))) /\
  member_of_block "video" "bit_rate" (connect_message (config_ s))
  = (if (video_bitrate (config_ s) =? 0)%Z then None
     else Some (Json.Int64 (video_bitrate (config_ s)))) /\
  member_of_block "audio" "codec_type" (connect_message (config_ s))
  = Some (Json.Str (audio_codec (config_ s))) /\
  member_of_block "audio" "bit_rate" (connect_message (config_ s))
  = (if (audio_bitrate (config_ s) =? 0)%Z then None
     else Some (Json.Int64 (audio_bitrate (config_ s)))) /\
  (Json.find "metadata" (connect_message (config_ s)) = None
   <-> metadata (config_ s) = Json.Null) /\
  (member_of_block "video" "bit_rate" (connect_message (config_ s)) = None
   <-> video_bitrate (config_ s) = 0%Z) /\
  (member_of_block "audio" "bit_rate" (connect_message (config_ s)) = None
   <-> audio_bitrate (config_ s) = 0%Z).
Proof.
  split; [reflexivity |].
  unfold connect_message, member_of_block.
  destruct (metadata (config_ s)) eqn:M;
    destruct (Z.eqb_spec (video_bitrate (config_ s)) 0) as [V | V];
    destruct (Z.eqb_spec (audio_bitrate (config_ s)) 0) as [A | A];
    simpl; repeat split; intros; try reflexivity; try assumption;
    try discriminate; try contradiction.
Qed.

(** *** What the handlers leave alone *)

Lemma count_nil (p : call -> bool) : count p [] = 0.
Proof. reflexivity. Qed.

Ltac frame_done :=
  unfold object_of, calls_of; simpl; unfold count; simpl;
  repeat split; try reflexivity; try assumption; try lia.

(** The members no branch of the dispatch assigns, and its calls on the
    manager and the websocket. *)
Lemma dispatch_members (s : SoraSignaling) (text : string) (json_message : Json.value)
  (type : string) :
  ws_ (object_of (OnRead_dispatch text json_message type s)) = ws_ s /\
  config_ (object_of (OnRead_dispatch text json_message type s)) = config_ s /\
  on_notify_ (object_of (OnRead_dispatch text json_message type s)) = on_notify_ s /\
  parts_ (object_of (OnRead_dispatch text json_message type s)) = parts_ s /\
  manager_ (object_of (OnRead_dispatch text json_message type s))
  = manager_ s + count is_createConnection (calls_of (OnRead_dispatch text json_message type s)) /\
  count opens_websocket (calls_of (OnRead_dispatch text json_message type s)) = 0.
Proof.
  unfold OnRead_dispatch.
  destruct (String.eqb_spec type "offer") as [-> | O];
    [| destruct (String.eqb_spec type "update") as [-> | U];
       [| destruct (String.eqb_spec type "notify") as [-> | N];
          [| destruct (String.eqb_spec type "ping") as [-> | P] ]]];
    run_member; unfold object_of, calls_of;
    repeat (split_on_scrutinee; simpl);
    unfold count; simpl; repeat split; try reflexivity; try assumption; lia.
Qed.

Lemma OnRead_members (s : SoraSignaling) (ec : error_code) (n : nat) (text : string) :
  ws_ (object_of (OnRead ec n text s)) = ws_ s /\
  config_ (object_of (OnRead ec n text s)) = config_ s /\
  on_notify_ (object_of (OnRead ec n text s)) = on_notify_ s /\
  parts_ (object_of (OnRead ec n text s)) = parts_ s /\
  manager_ (object_of (OnRead ec n text s))
  = manager_ s + count is_createConnection (calls_of (OnRead ec n text s)) /\
  count opens_websocket (calls_of (OnRead ec n text s)) = 0.
Proof.
  destruct ec as [| | what]; [| frame_done | frame_done].
  destruct (parse text) as [json_message |] eqn:P;
    [| rewrite (OnRead_malformed s n text P); frame_done].
  destruct (Json.string_at "type" json_message) as [type | e] eqn:T;
    [| rewrite (OnRead_untyped s n text json_message e P T); frame_done].
  rewrite (OnRead_typed s n text json_message type P T).
  destruct (dispatch_members s text json_message type) as (A & B & C & D & E & F).
  destruct (OnRead_dispatch text json_message type s) as [[[returned | e | ] s'] cs];
    unfold calls_of, object_of in *; simpl in *;
    try (destruct returned);
    rewrite ?count_cons, ?count_app, ?count_cons, ?count_nil; simpl;
    repeat split; try assumption; lia.
Qed.


(** What handling one event keeps: the configuration, the notify callback
    and [parts_] always; [rtc_state_] unless the event is a posted task;
    [connected_] once it is set, and then the websocket too. *)
Lemma handle_keeps (e : event) (s : SoraSignaling) :
  config_ (object_of (handle e s)) = config_ s /\
  on_notify_ (object_of (handle e s)) = on_notify_ s /\
  parts_ (object_of (handle e s)) = parts_ s /\
  manager_ (object_of (handle e s))
  = manager_ s + count is_createConnection (calls_of (handle e s)) /\
  (is_posted_task_run e = false -> rtc_state_ (object_of (handle e s)) = rtc_state_ s) /\
  (connected_ s = true ->
   connected_ (object_of (handle e s)) = true /\
   ws_ (object_of (handle e s)) = ws_ s /\
   count opens_websocket (calls_of (handle e s)) = 0).
Proof.
  destruct e as [| | | ec | ec n text | ec | n | n sdp | report | new_state
                 | mid idx sdp | [new_state]]; simpl.
  - unfold Connect, bind, do, this, modify, ret, object_of, calls_of; simpl.
    repeat (split_on_scrutinee; simpl); frame_done; discriminate.
  - frame_done.
  - unfold Release, assign_connection, released. destruct (connection_ s); frame_done.
  - unfold OnConnect, DoSendConnect, DoRead, bind, do, this, modify, ret, object_of, calls_of.
    destruct (failed ec); frame_done.
  - destruct (OnRead_members s ec n text) as (A & B & C & D & E & F).
    destruct (OnRead_frame s ec n text) as (R & K & _).
    repeat split; try assumption; congruence.
  - unfold OnClose. destruct (failed ec); frame_done.
  - unfold SetOffer_on_success, deref_connection, bind, do. destruct (connection_ s); frame_done.
  - frame_done.
  - frame_done.
  - frame_done.
  - frame_done.
  - frame_done; discriminate.
Qed.

Lemma run_cons (e : event) (rest : list event) (s : SoraSignaling) :
  run (e :: rest) s
  = match handle e s with
    | (Returned _, s1, c1) =>
        (ending_of (run rest s1), object_of (run rest s1), (c1 ++ calls_of (run rest s1))%list)
    | (Threw x, s1, c1) => (Threw x, s1, c1)
    | (NullConnection, s1, c1) => (NullConnection, s1, c1)
    end.
Proof.
  simpl. unfold bind. destruct (handle e s) as [[[[] | x |] s1] c1]; try reflexivity.
  destruct (run rest s1) as [[e2 s2] c2]. reflexivity.
Qed.

Lemma run_keeps (es : list event) :
  forall s : SoraSignaling,
    config_ (object_of (run es s)) = config_ s /\
    on_notify_ (object_of (run es s)) = on_notify_ s /\
    parts_ (object_of (run es s)) = parts_ s /\
    manager_ (object_of (run es s))
    = manager_ s + count is_createConnection (calls_of (run es s)) /\
    (forallb (fun e => negb (is_posted_task_run e)) es = true ->
     rtc_state_ (object_of (run es s)) = rtc_state_ s) /\
    (connected_ s = true ->
     connected_ (object_of (run es s)) = true /\
     ws_ (object_of (run es s)) = ws_ s /\
     count opens_websocket (calls_of (run es s)) = 0).
Proof.
  induction es as [| e rest IH]; intros s.
  - frame_done.
  - rewrite run_cons.
    destruct (handle_keeps e s) as (A & B & C & D & E & F).
    destruct (handle e s) as [[[[] | x |] s1] c1];
      unfold object_of, calls_of in A, B, C, D, E, F; simpl in A, B, C, D, E, F.
    + destruct (IH s1) as (A' & B' & C' & D' & E' & F').
      unfold object_of, calls_of, ending_of in *. simpl in *.
      rewrite !count_app.
      split; [congruence | split; [congruence | split; [congruence | split; [lia |]]]].
      split.
      * intros H. apply andb_prop in H. destruct H as [H1 H2].
        apply negb_true_iff in H1. rewrite (E' H2). apply E. exact H1.
      * intros H. destruct (F H) as (F1 & F2 & F3). destruct (F' F1) as (G1 & G2 & G3).
        split; [exact G1 | split; [congruence | lia]].
    + unfold object_of, calls_of; simpl.
      split; [exact A | split; [exact B | split; [exact C | split; [exact D |]]]].
      split; [| exact F].
      intros H. apply andb_prop in H. destruct H as [H1 _].
      apply negb_true_iff in H1. apply E. exact H1.
    + unfold object_of, calls_of; simpl.
      split; [exact A | split; [exact B | split; [exact C | split; [exact D |]]]].
      split; [| exact F].
      intros H. apply andb_prop in H. destruct H as [H1 _].
      apply negb_true_iff in H1. apply E. exact H1.
Qed.


(** *** The connectivity state *)

(** X1. [iceConnectionStateToString] names the eight states by eight
    different strings, none of them the fall-through ["unknown"]. *)
Theorem state_names_distinct (a b : IceConnectionState) :
  String.eqb (iceConnectionStateToString a) (iceConnectionStateToString b)
  = IceConnectionState_eqb a b /\
  String.eqb (iceConnectionStateToString a) "unknown" = false.
Proof using.
  destruct a, b; split; reflexivity.
Qed.

Lemma with_rtc_state_same (s : SoraSignaling) : with_rtc_state (rtc_state_ s) s = s.
Proof using. destruct s; reflexivity. Qed.

Lemma state_changes_calls (states : list IceConnectionState) (s : SoraSignaling) :
  ending_of (state_changes states s) = Returned tt /\
  object_of (state_changes states s) = s /\
  posted (calls_of (state_changes states s))
  = List.map DoIceConnectionStateChange_task states /\
  written (calls_of (state_changes states s)) = [].
Proof using.
  induction states as [| new_state rest IH]; simpl.
  - repeat split.
  - unfold bind, OnIceConnectionStateChange, do; simpl.
    destruct IH as (E & O & P & W).
    destruct (state_changes rest s) as [[e s'] cs].
    unfold ending_of, object_of, calls_of in *; simpl in *.
    subst. rewrite P, W. repeat split.
Qed.

Lemma last_cons {A : Type} (l : list A) :
  forall a d : A, List.last (a :: l) d = List.last l a.
Proof using.
  induction l as [| b l IH]; intros a d; [reflexivity |].
  change (List.last (a :: b :: l) d) with (List.last (b :: l) d).
  rewrite (IH b d), (IH b a). reflexivity.
Qed.

Lemma run_tasks_result (states : list IceConnectionState) :
  forall s : SoraSignaling,
    ending_of (run_tasks (List.map DoIceConnectionStateChange_task states) s) = Returned tt /\
    object_of (run_tasks (List.map DoIceConnectionStateChange_task states) s)
    = with_rtc_state (List.last states (rtc_state_ s)) s /\
    written (calls_of (run_tasks (List.map DoIceConnectionStateChange_task states) s)) = [] /\
    count is_read (calls_of (run_tasks (List.map DoIceConnectionStateChange_task states) s))
    = 0.
Proof using.
  induction states as [| new_state rest IH]; intros s.
  - simpl. rewrite with_rtc_state_same. repeat split.
  - rewrite last_cons.
    simpl List.map. simpl run_tasks. unfold bind, run_task, DoIceConnectionStateChange.
    unfold bind, this, do, modify. simpl.
    destruct (IH (with_rtc_state new_state s)) as (E & O & W & R).
    destruct (run_tasks (List.map DoIceConnectionStateChange_task rest)
                        (with_rtc_state new_state s)) as [[e s'] cs].
    unfold ending_of, object_of, calls_of in *; simpl in *.
    rewrite count_cons. simpl. subst.
    repeat split; assumption.
Qed.

(** *** The callbacks of the connection *)



(** X2. The state-change callbacks of any sequence of states change no
    member and write nothing: they post one task per state, in order.
    Running the posted tasks in that order leaves [rtc_state_] at the last
    state of the sequence and every other member as it was, and writes
    nothing and issues no read; [getRTCConnectionState] then returns that
    last state. *)
Theorem state_is_last_reported (states : list IceConnectionState) (s : SoraSignaling) :
  state_changes states s
  = (Returned tt, s, calls_of (state_changes states s)) /\
  posted (calls_of (state_changes states s))
  = List.map DoIceConnectionStateChange_task states /\
  written (calls_of (state_changes states s)) = [] /\
  ending_of (run_tasks (posted (calls_of (state_changes states s))) s) = Returned tt /\
  object_of (run_tasks (posted (calls_of (state_changes states s))) s)
  = with_rtc_state (List.last states (rtc_state_ s)) s /\
  getRTCConnectionState (object_of (run_tasks (posted (calls_of (state_changes states s))) s))
  = List.last states (rtc_state_ s) /\
  written (calls_of (run_tasks (posted (calls_of (state_changes states s))) s)) = [] /\
  count is_read (calls_of (run_tasks (posted (calls_of (state_changes states s))) s)) = 0.
Proof using.
  destruct (state_changes_calls states s) as (E & O & P & W).
  destruct (run_tasks_result states s) as (E' & O' & W' & R').
  rewrite P. unfold getRTCConnectionState. rewrite O'.
  repeat split; try assumption.
  destruct (state_changes states s) as [[e s'] cs].
  unfold ending_of, object_of, calls_of in *; simpl in *. subst. reflexivity.
Qed.

(** X3. After the posted tasks of a sequence of state changes have run,
    [getRTCConnection] hands out the connection held exactly when the last
    state reported is [kIceConnectionConnected]; after [Release] it returns
    none whatever the state. *)
Theorem accessor_follows_last_state (states : list IceConnectionState) (s : SoraSignaling) :
  getRTCConnection
    (object_of (run_tasks (List.map DoIceConnectionStateChange_task states) s))
  = (if IceConnectionState_eqb (List.last states (rtc_state_ s)) kIceConnectionConnected
     then connection_ s else None) /\
  getRTCConnection
    (object_of (Release
                  (object_of (run_tasks (List.map DoIceConnectionStateChange_task states) s))))
  = None.
Proof using.
  destruct (run_tasks_result states s) as (_ & O & _).
  rewrite O. unfold getRTCConnection, Release, assign_connection, object_of. simpl.
  split; [reflexivity |].
  destruct (IceConnectionState_eqb (List.last states (rtc_state_ s)) kIceConnectionConnected);
    reflexivity.
Qed.


(** *** Connecting *)

(** X4. [Connect] on a client that is not connected returns false and
    leaves the object as it is, with no websocket constructed, when the
    signaling URL does not parse (an error is logged) and when its scheme is
    neither ["ws"] nor ["wss"] (nothing more is logged). *)
Theorem Connect_refuses_url (s : SoraSignaling) :
  connected_ s = false ->
  (URLParts_Parse (signaling_url (config_ s)) = None ->
   Connect s
   = (Returned false, s,
      [RTC_LOG LS_INFO "Connect"; RTC_LOG LS_INFO ("Connect to " ++ host (parts_ s));
       RTC_LOG LS_ERROR ("Invalid Signaling URL: " ++ signaling_url (config_ s))])) /\
  (forall parts,
     URLParts_Parse (signaling_url (config_ s)) = Some parts ->
     scheme parts <> "ws" -> scheme parts <> "wss" ->
     Connect s
     = (Returned false, s,
        [RTC_LOG LS_INFO "Connect"; RTC_LOG LS_INFO ("Connect to " ++ host (parts_ s))])).
Proof using.
  intros C. unfold Connect, bind, do, this, modify, ret. simpl. rewrite C. simpl.
  split.
  - intros P. rewrite P. reflexivity.
  - intros parts P W S. rewrite P.
    apply String.eqb_neq in W, S. rewrite W, S. reflexivity.
Qed.

(** X5. [Connect] on a client that is not connected, with a URL that
    parses: scheme ["ws"] constructs a plain websocket, scheme ["wss"] a TLS
    websocket carrying the configured [insecure] flag; the websocket is
    stored in [ws_], asked to connect to the configured URL, and true is
    returned.  [connected_] is not set by [Connect]. *)
Theorem Connect_opens_websocket (s : SoraSignaling) (parts : URLParts) :
  connected_ s = false ->
  URLParts_Parse (signaling_url (config_ s)) = Some parts ->
  (scheme parts = "ws" ->
   Connect s
   = (Returned true, with_ws (Some {| ssl := false; ws_insecure := false |}) s,
      [RTC_LOG LS_INFO "Connect"; RTC_LOG LS_INFO ("Connect to " ++ host (parts_ s));
       Websocket_new {| ssl := false; ws_insecure := false |};
       Websocket_Connect (signaling_url (config_ s))])) /\
  (scheme parts = "wss" ->
   Connect s
   = (Returned true,
      with_ws (Some {| ssl := true; ws_insecure := insecure (config_ s) |}) s,
      [RTC_LOG LS_INFO "Connect"; RTC_LOG LS_INFO ("Connect to " ++ host (parts_ s));
       Websocket_new {| ssl := true; ws_insecure := insecure (config_ s) |};
       Websocket_Connect (signaling_url (config_ s))])) /\
  (ending_of (Connect s) = Returned true -> connected_ (object_of (Connect s)) = false).
Proof using.
  intros C P. unfold Connect, bind, do, this, modify, ret. simpl. rewrite C, P. simpl.
  split; [| split].
  - intros ->. reflexivity.
  - intros ->. reflexivity.
  - destruct (String.eqb (scheme parts) "ws"); [intros _; exact C |].
    destruct (String.eqb (scheme parts) "wss"); [intros _; exact C | discriminate].
Qed.

(** X6. The guard of [Connect] is [connected_], which only the handshake
    completion sets: a second [Connect] before the handshake has completed
    constructs and opens a second websocket, which replaces the first in
    [ws_]. *)
Theorem Connect_twice_before_handshake (s : SoraSignaling) (parts : URLParts) :
  connected_ s = false ->
  URLParts_Parse (signaling_url (config_ s)) = Some parts ->
  scheme parts = "wss" ->
  (Connect ;; Connect) s
  = (Returned true,
     with_ws (Some {| ssl := true; ws_insecure := insecure (config_ s) |}) s,
     [RTC_LOG LS_INFO "Connect"; RTC_LOG LS_INFO ("Connect to " ++ host (parts_ s));
      Websocket_new {| ssl := true; ws_insecure := insecure (config_ s) |};
      Websocket_Connect (signaling_url (config_ s));
      RTC_LOG LS_INFO "Connect"; RTC_LOG LS_INFO ("Connect to " ++ host (parts_ s));
      Websocket_new {| ssl := true; ws_insecure := insecure (config_ s) |};
      Websocket_Connect (signaling_url (config_ s))]) /\
  count opens_websocket (calls_of ((Connect ;; Connect) s)) = 4.
Proof using.
  intros C P W. unfold Connect, bind, do, this, modify, ret. simpl.
  rewrite C, P, W. simpl. rewrite C, P, W. simpl. split; reflexivity.
Qed.

(** X7. The completion of the handshake.  With any error, cancellation
    included, it logs the error as the stream prints it (a cancellation as
    the system category and the platform's value) and does nothing
    else: [connected_] is not set, no read is issued and nothing is
    written.  With success it sets [connected_], then issues the first
    read, then writes the connect message, in that order, and changes no
    other member. *)
Theorem OnConnect_starts_session (s : SoraSignaling) (ec : error_code) :
  (failed ec = true ->
   OnConnect ec s
   = (Returned tt, s,
      [RTC_LOG LS_INFO "OnConnect";
       RTC_LOG LS_ERROR ("Failed Websocket handshake: "
                         ++ error_code_text operation_aborted_value ec)])) /\
  OnConnect success s
  = (Returned tt, with_connected true s,
     [RTC_LOG LS_INFO "OnConnect"; RTC_LOG LS_INFO "Signaling Websocket is connected";
      Websocket_Read;
      Websocket_WriteText (serialize (Json.Object (connect_message (config_ s))))]) /\
  OnConnect operation_aborted s
  = (Returned tt, s,
     [RTC_LOG LS_INFO "OnConnect";
      RTC_LOG LS_ERROR ("Failed Websocket handshake: system:"
                        ++ JsonText.string_of_Z operation_aborted_value)]).
Proof using.
  split; [| split; reflexivity].
  intros F. unfold OnConnect, bind, do. simpl. rewrite F. reflexivity.
Qed.

(** *** Invariants of runs *)

(** X8. Once [connected_] is set it stays set through every run of events,
    closing the websocket included: no event resets it.  Through such a run
    [ws_] is never assigned and no websocket is constructed or opened, so
    every [Connect] of the run is refused. *)
Theorem connected_never_reset (es : list event) (s : SoraSignaling) :
  connected_ s = true ->
  connected_ (object_of (run es s)) = true /\
  ws_ (object_of (run es s)) = ws_ s /\
  count opens_websocket (calls_of (run es s)) = 0.
Proof using.
  intros H. destruct (run_keeps es s) as (_ & _ & _ & _ & _ & K). exact (K H).
Qed.

(** X9. [rtc_state_] is assigned only by the posted state-change task: a
    run of events in which no posted task runs, whatever else happens in
    it, leaves [rtc_state_] as it was. *)
Theorem state_changes_only_by_task (es : list event) (s : SoraSignaling) :
  forallb (fun e => negb (is_posted_task_run e)) es = true ->
  rtc_state_ (object_of (run es s)) = rtc_state_ s /\
  getRTCConnectionState (object_of (run es s)) = getRTCConnectionState s.
Proof using.
  intros H. destruct (run_keeps es s) as (_ & _ & _ & _ & K & _).
  unfold getRTCConnectionState. rewrite (K H). split; reflexivity.
Qed.

(** X10. No run of events assigns the configuration, the notify callback or
    [parts_].  In particular the URL parsed by [Connect] goes to a local
    variable and never to [parts_]: the host named by the ["Connect to "]
    log line is the one [parts_] had before the run. *)
Theorem config_and_parts_never_assigned (es : list event) (s : SoraSignaling) :
  config_ (object_of (run es s)) = config_ s /\
  on_notify_ (object_of (run es s)) = on_notify_ s /\
  parts_ (object_of (run es s)) = parts_ s /\
  (connected_ (object_of (run es s)) = false ->
   List.nth_error (calls_of (Connect (object_of (run es s)))) 1
   = Some (RTC_LOG LS_INFO ("Connect to " ++ host (parts_ s)))).
Proof using.
  destruct (run_keeps es s) as (A & B & C & _).
  repeat split; try assumption.
  intros H. unfold Connect, bind, do, this, modify, ret, calls_of. simpl.
  rewrite H, C. simpl.
  destruct (URLParts_Parse (signaling_url (config_ (object_of (run es s)))));
    [| reflexivity].
  destruct (String.eqb (scheme u) "ws"); [reflexivity |].
  destruct (String.eqb (scheme u) "wss"); reflexivity.
Qed.


(** *** The ICE configuration of an offer *)

Lemma ice_servers_of_urls_strings (user credential : string) (urls : list string) :
  ice_servers_of_urls user credential (List.map Json.Str urls)
  = Json.Ok (List.map (fun url => {| uri := Json.c_str url; username := user;
                                     password := credential |}) urls).
Proof using.
  induction urls as [| url rest IH]; simpl; [reflexivity |].
  rewrite IH. reflexivity.
Qed.

Lemma ice_servers_of_blocks (blocks : list ice_block) :
  ice_servers_of (List.map jserver_of blocks)
  = Json.Ok (List.flat_map servers_of_block blocks).
Proof using.
  induction blocks as [| b rest IH]; [reflexivity |].
  simpl List.map. simpl List.flat_map.
  change (ice_servers_of (jserver_of b :: List.map jserver_of rest))
    with (Json.res_bind (ice_servers_of_urls (Json.c_str (block_username b))
                           (Json.c_str (block_credential b))
                           (List.map Json.Str (block_urls b)))
            (fun here =>
               Json.res_bind (ice_servers_of (List.map jserver_of rest))
                 (fun more => Json.Ok (here ++ more)%list))).
  rewrite ice_servers_of_urls_strings, IH. reflexivity.
Qed.

Lemma ice_servers_of_bad_block (blocks : list ice_block)
  (m : list (string * Json.value)) (rest : list Json.value) :
  Json.find "username" m = None ->
  ice_servers_of (List.map jserver_of blocks ++ Json.Object m :: rest)%list
  = Json.Raise Json.out_of_range.
Proof using.
  intros H. induction blocks as [| b more IH].
  - simpl. unfold Json.string_at, Json.at_. simpl. rewrite H. reflexivity.
  - simpl List.map. simpl List.app.
    change (ice_servers_of
              (jserver_of b :: (List.map jserver_of more ++ Json.Object m :: rest)%list))
      with (Json.res_bind (ice_servers_of_urls (Json.c_str (block_username b))
                             (Json.c_str (block_credential b))
                             (List.map Json.Str (block_urls b)))
              (fun here =>
                 Json.res_bind
                   (ice_servers_of (List.map jserver_of more ++ Json.Object m :: rest)%list)
                   (fun more => Json.Ok (here ++ more)%list))).
    rewrite ice_servers_of_urls_strings, IH. reflexivity.
Qed.

Lemma servers_of_blocks_length (blocks : list ice_block) :
  List.length (List.flat_map servers_of_block blocks)
  = List.list_sum (List.map (fun b => List.length (block_urls b)) blocks).
Proof using.
  induction blocks as [| b rest IH]; [reflexivity |].
  simpl. rewrite List.length_app, IH.
  unfold servers_of_block. rewrite List.length_map. reflexivity.
Qed.

(** X11. [CreatePeerFromConfig] reads an ["iceServers"] array of
    [{urls, username, credential}] blocks into one [IceServer] per url, in
    the order of the blocks and of their urls, each with the username and
    credential of its block; an empty array gives a configuration with no
    server.  An offer carrying such a config asks the manager for a
    connection with exactly these servers. *)
Theorem ice_servers_one_per_url (blocks : list ice_block) :
  rtc_config_of (jconfig_of blocks)
  = Json.Ok {| servers := List.flat_map servers_of_block blocks |} /\
  List.length (List.flat_map servers_of_block blocks)
  = List.list_sum (List.map (fun b => List.length (block_urls b)) blocks) /\
  rtc_config_of (jconfig_of []) = Json.Ok {| servers := [] |} /\
  (forall s n text sdp,
     parse text = Some (Json.Object [("type", Json.Str "offer");
                                     ("config", jconfig_of blocks);
                                     ("sdp", Json.Str sdp)]) ->
     List.filter is_createConnection (calls_of (OnRead success n text s))
     = [RTCManager_createConnection
          {| servers := List.flat_map servers_of_block blocks |}]).
Proof using.
  assert (R : rtc_config_of (jconfig_of blocks)
              = Json.Ok {| servers := List.flat_map servers_of_block blocks |}).
  { unfold rtc_config_of, jconfig_of, Json.at_. simpl.
    rewrite ice_servers_of_blocks. reflexivity. }
  split; [exact R | split; [apply servers_of_blocks_length | split; [reflexivity |]]].
  intros s n text sdp P.
  rewrite (OnRead_typed s n text _ "offer" P eq_refl).
  rewrite (dispatch_offer s text
             (Json.Object [("type", Json.Str "offer"); ("config", jconfig_of blocks);
                           ("sdp", Json.Str sdp)])
             (jconfig_of blocks) _ (Json.c_str sdp) eq_refl R eq_refl).
  unfold released.
  destruct (RTCManager_creates (manager_ s) _), (connection_ s); reflexivity.
Qed.

(** X12. A config that does not decode makes [rtc_config_of] throw: no
    ["iceServers"] member, an ["iceServers"] that is not an array, or a
    block without ["username"], whatever well-formed blocks come before it
    and whatever follows. *)
Theorem ice_config_rejected (members : list (string * Json.value)) :
  (Json.find "iceServers" members = None ->
   rtc_config_of (Json.Object members) = Json.Raise Json.out_of_range) /\
  (forall v, Json.find "iceServers" members = Some v ->
             Json.as_array v = Json.Raise Json.invalid_argument ->
             rtc_config_of (Json.Object members) = Json.Raise Json.invalid_argument) /\
  (forall blocks m rest,
     Json.find "username" m = None ->
     rtc_config_of
       (Json.Object [("iceServers",
                      Json.Array (List.map jserver_of blocks ++ Json.Object m :: rest)%list)])
     = Json.Raise Json.out_of_range).
Proof using.
  unfold rtc_config_of, Json.at_. simpl. split; [| split].
  - intros H. rewrite H. reflexivity.
  - intros v H A. rewrite H. simpl. rewrite A. reflexivity.
  - intros blocks m rest H. rewrite (ice_servers_of_bad_block blocks m rest H). reflexivity.
Qed.

(** X13. An offer whose ["config"] is missing or does not decode makes the
    read handler throw before the manager is asked: the object is unchanged
    and the only call is the log line. *)
Theorem offer_with_bad_config (s : SoraSignaling) (n : nat) (text : string)
  (json_message : Json.value) (e : Json.exception) :
  parse text = Some json_message ->
  Json.string_at "type" json_message = Json.Ok "offer" ->
  Json.at_ "config" json_message = Json.Raise e \/
  (exists jconfig, Json.at_ "config" json_message = Json.Ok jconfig /\
                   rtc_config_of jconfig = Json.Raise e) ->
  OnRead success n text s
  = (Threw e, s, [RTC_LOG LS_INFO ("OnRead: text=" ++ text)]).
Proof using.
  intros P T H. rewrite (OnRead_typed s n text _ _ P T).
  unfold OnRead_dispatch. simpl. run_member.
  destruct H as [H | (jconfig & H & R)]; rewrite H; simpl; [reflexivity |].
  rewrite R. reflexivity.
Qed.

(** X14. An offer whose config decodes but whose ["sdp"] is missing or not
    a string has half of its effect: the manager has been asked, what it
    returned has replaced [connection_] and the connection held before has
    been given up when the handler throws; no [SetOffer] is made and no
    read is issued. *)
Theorem offer_without_sdp (s : SoraSignaling) (n : nat) (text : string)
  (json_message jconfig : Json.value) (rtc_config : RTCConfiguration)
  (e : Json.exception) :
  parse text = Some json_message ->
  Json.string_at "type" json_message = Json.Ok "offer" ->
  Json.at_ "config" json_message = Json.Ok jconfig ->
  rtc_config_of jconfig = Json.Ok rtc_config ->
  Json.string_at "sdp" json_message = Json.Raise e ->
  OnRead success n text s
  = (Threw e,
     with_connection (RTCManager_creates (manager_ s) rtc_config)
       (with_manager (S (manager_ s)) s),
     RTC_LOG LS_INFO ("OnRead: text=" ++ text)
       :: RTCManager_createConnection rtc_config :: released s).
Proof using.
  intros P T C R S. rewrite (OnRead_typed s n text _ _ P T).
  unfold OnRead_dispatch. simpl. run_member. rewrite C. simpl. rewrite R. simpl.
  rewrite S. simpl. destruct (connection_ s); reflexivity.
Qed.


(** *** Negotiation *)

(** X15. Offer, then the completion of [SetOffer], then the completion of
    [CreateAnswer]: the answer is asked of the connection the offer made,
    and exactly one text is written, the message of type ["answer"] with the
    answer's sdp.  The same chain for an update uses the connection held
    and writes one message of type ["update"]. *)
Theorem negotiation_writes_one_answer (s : SoraSignaling) (n : nat) (text : string)
  (json_message : Json.value) (sdp answer : string) :
  parse text = Some json_message ->
  Json.string_at "sdp" json_message = Json.Ok sdp ->
  (forall jconfig rtc_config c,
     Json.string_at "type" json_message = Json.Ok "offer" ->
     Json.at_ "config" json_message = Json.Ok jconfig ->
     rtc_config_of jconfig = Json.Ok rtc_config ->
     RTCManager_creates (manager_ s) rtc_config = Some c ->
     (OnRead success n text ;; SetOffer_on_success ForOffer ;;
      CreateAnswer_on_success ForOffer answer) s
     = (Returned tt, with_connection (Some c) (with_manager (S (manager_ s)) s),
        (RTC_LOG LS_INFO ("OnRead: text=" ++ text)
           :: RTCManager_createConnection rtc_config
           :: released s
           ++ [RTCConnection_SetOffer c sdp ForOffer; Websocket_Read;
               RTCConnection_CreateAnswer c ForOffer;
               Websocket_WriteText
                 (serialize (Json.Object [("type", Json.Str "answer");
                                          ("sdp", Json.Str answer)]))])%list)) /\
  (forall c,
     Json.string_at "type" json_message = Json.Ok "update" ->
     connection_ s = Some c ->
     (OnRead success n text ;; SetOffer_on_success ForUpdate ;;
      CreateAnswer_on_success ForUpdate answer) s
     = (Returned tt, s,
        [RTC_LOG LS_INFO ("OnRead: text=" ++ text);
         RTCConnection_SetOffer c sdp ForUpdate; Websocket_Read;
         RTCConnection_CreateAnswer c ForUpdate;
         Websocket_WriteText
           (serialize (Json.Object [("type", Json.Str "update");
                                    ("sdp", Json.Str answer)]))])).
Proof using.
  intros P S. split.
  - intros jconfig rtc_config c T C R M.
    unfold bind at 1. rewrite (OnRead_typed s n text _ _ P T).
    rewrite (dispatch_offer s text _ _ _ _ C R S), M. simpl.
    unfold bind, SetOffer_on_success, CreateAnswer_on_success, deref_connection, bind, do.
    simpl. rewrite <- !List.app_assoc. reflexivity.
  - intros c T C.
    unfold bind at 1. rewrite (OnRead_typed s n text _ _ P T).
    rewrite (dispatch_update s text _ sdp S), C. simpl.
    unfold bind, SetOffer_on_success, CreateAnswer_on_success, deref_connection, bind, do.
    simpl. rewrite C. reflexivity.
Qed.

(** X16. The completion of [SetOffer] dereferences [connection_] as it is
    when the completion runs.  After [Release] it ends on the null
    dereference and asks for no answer.  The completion of [CreateAnswer]
    does not use [connection_]: after [Release] it still writes its
    message. *)
Theorem completions_after_Release (s : SoraSignaling) (n : negotiation) (answer : string) :
  (Release ;; SetOffer_on_success n) s
  = (NullConnection, with_connection None s, released s) /\
  (Release ;; CreateAnswer_on_success n answer) s
  = (Returned tt, with_connection None s,
     (released s
        ++ [Websocket_WriteText
              (serialize (Json.Object [("type", Json.Str (answer_type n));
                                       ("sdp", Json.Str answer)]))])%list) /\
  (forall c, connection_ s = Some c ->
             SetOffer_on_success n s = (Returned tt, s, [RTCConnection_CreateAnswer c n])).
Proof using.
  unfold bind, Release, assign_connection, SetOffer_on_success, CreateAnswer_on_success,
    deref_connection, bind, do. simpl.
  split; [| split].
  - rewrite List.app_nil_r. reflexivity.
  - reflexivity.
  - intros c C. rewrite C. reflexivity.
Qed.

(** *** The other branches of the read handler *)

(** X17. A notify message is handed to the notify callback as the raw text
    that was read, once, when a callback is registered, and dropped when
    none is; either way nothing is written, no member changes and the next
    read is issued. *)
Theorem notify_forwarded_verbatim (s : SoraSignaling) (n : nat) (text : string)
  (json_message : Json.value) :
  parse text = Some json_message ->
  Json.string_at "type" json_message = Json.Ok "notify" ->
  OnRead success n text s
  = (Returned tt, s,
     RTC_LOG LS_INFO ("OnRead: text=" ++ text)
       :: (if on_notify_ s then [on_notify text; Websocket_Read] else [Websocket_Read])) /\
  written (calls_of (OnRead success n text s)) = [].
Proof using.
  intros P T. rewrite (OnRead_typed s n text _ _ P T), dispatch_notify.
  destruct (on_notify_ s); split; reflexivity.
Qed.

(** X18. A ping read while [kIceConnectionConnected] whose ["stats"] member
    is present but not a boolean makes the handler throw: no pong is
    written, no statistics are asked for and no read is issued. *)
Theorem ping_with_odd_stats (s : SoraSignaling) (n : nat) (text : string)
  (members : list (string * Json.value)) (v : Json.value) :
  parse text = Some (Json.Object members) ->
  Json.string_at "type" (Json.Object members) = Json.Ok "ping" ->
  rtc_state_ s = kIceConnectionConnected ->
  Json.find "stats" members = Some v ->
  Json.as_bool v = Json.Raise Json.invalid_argument ->
  OnRead success n text s
  = (Threw Json.invalid_argument, s, [RTC_LOG LS_INFO ("OnRead: text=" ++ text)]).
Proof using.
  intros P T C F B. rewrite (OnRead_typed s n text _ _ P T).
  unfold OnRead_dispatch. simpl. run_member. rewrite C, F. simpl. rewrite B. reflexivity.
Qed.

Lemma c_str_prefix (p q : string) :
  no_nul p = true -> Json.c_str (p ++ String Ascii.zero q) = p.
Proof using.
  induction p as [| c p IH]; simpl; [reflexivity |].
  intros H. apply andb_prop in H. destruct H as [H1 H2].
  apply negb_true_iff in H1. rewrite H1, (IH H2). reflexivity.
Qed.

(** X19. The handler takes the strings of a message as C strings: what
    follows the first NUL of the type or of the sdp is dropped.  In state
    [kIceConnectionConnected] a message whose type is ["ping"], a NUL and
    any further characters is a ping, answered with the bare pong.  A
    message whose type is ["update"], a NUL and any further characters is an
    update, and of its sdp only what precedes the first NUL is handed to
    [SetOffer]. *)
Theorem strings_end_at_first_nul (s : SoraSignaling) (n : nat) (text : string)
  (members : list (string * Json.value)) (q : string) :
  parse text = Some (Json.Object members) ->
  (Json.find "type" members = Some (Json.Str ("ping" ++ String Ascii.zero q)) ->
   rtc_state_ s = kIceConnectionConnected ->
   Json.find "stats" members = None ->
   OnRead success n text s
   = (Returned tt, s,
      [RTC_LOG LS_INFO ("OnRead: text=" ++ text);
       Websocket_WriteText (serialize (Json.Object [("type", Json.Str "pong")]));
       Websocket_Read])) /\
  (forall (c : RTCConnection) (sdp tail : string),
     Json.find "type" members = Some (Json.Str ("update" ++ String Ascii.zero q)) ->
     Json.find "sdp" members = Some (Json.Str (sdp ++ String Ascii.zero tail)) ->
     no_nul sdp = true ->
     connection_ s = Some c ->
     OnRead success n text s
     = (Returned tt, s,
        [RTC_LOG LS_INFO ("OnRead: text=" ++ text);
         RTCConnection_SetOffer c sdp ForUpdate; Websocket_Read])).
Proof using.
  intros P. split.
  - intros F H N.
    assert (T : Json.string_at "type" (Json.Object members) = Json.Ok "ping").
    { unfold Json.string_at, Json.at_. simpl. rewrite F. reflexivity. }
    rewrite (OnRead_typed s n text _ _ P T).
    rewrite (dispatch_ping_bare s text members H (or_introl N)). reflexivity.
  - intros c sdp tail F D Z C.
    assert (T : Json.string_at "type" (Json.Object members) = Json.Ok "update").
    { unfold Json.string_at, Json.at_. simpl. rewrite F. reflexivity. }
    assert (U : Json.string_at "sdp" (Json.Object members) = Json.Ok sdp).
    { unfold Json.string_at, Json.at_. simpl. rewrite D. simpl.
      unfold Json.as_std_string. simpl. rewrite (c_str_prefix sdp tail Z). reflexivity. }
    rewrite (OnRead_typed s n text _ _ P T).
    rewrite (dispatch_update s text _ sdp U), C. reflexivity.
Qed.

(** X20. Whatever is read, the read handler itself writes at most one text,
    and only the bare pong: a non-empty write is the serialised
    [{"type":"pong"}] and is made only in state [kIceConnectionConnected].
    Answers and statistics pongs are written by the connection's callbacks,
    never by the handler. *)
Theorem handler_writes_only_bare_pong (s : SoraSignaling) (ec : error_code) (n : nat)
  (text : string) :
  written (calls_of (OnRead ec n text s)) = [] \/
  (written (calls_of (OnRead ec n text s))
   = [serialize (Json.Object [("type", Json.Str "pong")])] /\
   rtc_state_ s = kIceConnectionConnected).
Proof using.
  destruct ec as [| | what]; [| left; reflexivity | left; reflexivity].
  destruct (parse text) as [json_message |] eqn:P;
    [| rewrite (OnRead_malformed s n text P); left; reflexivity].
  destruct (Json.string_at "type" json_message) as [type | e] eqn:T;
    [| rewrite (OnRead_untyped s n text json_message e P T); left; reflexivity].
  rewrite (OnRead_typed s n text json_message type P T).
  assert (D : written (calls_of (OnRead_dispatch text json_message type s)) = [] \/
              (written (calls_of (OnRead_dispatch text json_message type s))
               = [serialize (Json.Object [("type", Json.Str "pong")])] /\
               rtc_state_ s = kIceConnectionConnected)).
  { unfold OnRead_dispatch.
    destruct (String.eqb_spec type "offer") as [-> | O];
      [| destruct (String.eqb_spec type "update") as [-> | U];
         [| destruct (String.eqb_spec type "notify") as [-> | N];
            [| destruct (String.eqb_spec type "ping") as [-> | G] ]]];
      run_member; unfold calls_of;
      repeat (split_on_scrutinee; simpl);
      try (left; reflexivity).
    all: right; split; [reflexivity |].
    all: match goal with
         | H : negb (IceConnectionState_eqb _ _) = false |- _ =>
             apply negb_false_iff in H; apply IceConnectionState_eqb_eq in H; exact H
         end. }
  destruct (OnRead_dispatch text json_message type s) as [[[returned | e | ] s'] cs];
    unfold calls_of in *; simpl in *; try exact D.
  assert (W : written (cs ++ (if returned then [] else [Websocket_Read])) = written cs).
  { clear D. induction cs as [| c cs IH]; simpl; [destruct returned; reflexivity |].
    destruct c; simpl; rewrite ?IH; reflexivity. }
  rewrite W. exact D.
Qed.

(** *** The connect message, and the end of the read loop *)

(** X21. The connect message has its members in one fixed order -- type,
    role, multistream, channel_id, sora_client, libwebrtc, environment,
    then metadata when it is not null, then video, then audio -- and so no
    key twice, for every configuration. *)
Theorem connect_message_keys (config : SoraSignalingConfig) :
  List.map fst (connect_message config)
  = (["type"; "role"; "multistream"; "channel_id"; "sora_client"; "libwebrtc";
      "environment"]
       ++ (if Json.is_null (metadata config) then [] else ["metadata"])
       ++ ["video"; "audio"])%list /\
  NoDup (List.map fst (connect_message config)) /\
  List.length (connect_message config)
  = (if Json.is_null (metadata config) then 9 else 10).
Proof using.
  assert (D : NoDup ["type"; "role"; "multistream"; "channel_id"; "sora_client"; "libwebrtc";
                     "environment"; "metadata"; "video"; "audio"]).
  { repeat (constructor;
            [simpl; intros H; repeat (destruct H as [H | H]; [discriminate H |]); exact H |]).
    constructor. }
  assert (D' : NoDup ["type"; "role"; "multistream"; "channel_id"; "sora_client"; "libwebrtc";
                      "environment"; "video"; "audio"]).
  { repeat (constructor;
            [simpl; intros H; repeat (destruct H as [H | H]; [discriminate H |]); exact H |]).
    constructor. }
  unfold connect_message.
  destruct (metadata config);
    destruct (video_bitrate config =? 0)%Z; destruct (audio_bitrate config =? 0)%Z;
    simpl; (split; [reflexivity | split; [assumption | reflexivity]]).
Qed.

End Signaling.


(** ** Concrete runs

    The client over the codec [JsonText], the splitter [URL.Parse], the
    manager [makes_connection] and sample version strings. *)

Abbreviation on_read := (OnRead JsonText.parse JsonText.serialize makes_connection 125%Z).
Abbreviation run_client :=
  (run JsonText.parse JsonText.serialize URL.Parse makes_connection
       "2020.11.0" "5c7a1b2" "ubuntu-18.04_x86_64" "M86" "86.4240.10.0" "2d9ee1e" 125%Z).

Example parse_offer_text :
  JsonText.parse offer_text
  = Some (Json.Object
            [("type", Json.Str "offer");
             ("config",
              Json.Object
                [("iceServers",
                  Json.Array
                    [Json.Object [("urls", Json.Array [Json.Str "turn:t.example.com"]);
                                  ("username", Json.Str "u");
                                  ("credential", Json.Str "p")]])]);
             ("sdp", Json.Str "v=0")]).
Proof. vm_compute. reflexivity. Qed.

Example parse_malformed_text : JsonText.parse malformed_text = None.
Proof. vm_compute. reflexivity. Qed.

Example serialize_parse_unknown_text :
  option_map JsonText.serialize (JsonText.parse unknown_text) = Some unknown_text.
Proof. vm_compute. reflexivity. Qed.

Example Create_fresh_client : Create 0 sample_config true = Some fresh_client.
Proof. reflexivity. Qed.

(** Opening the control channel ends in [opened_client]. *)
Example opened_session :
  ending_of (run_client opened fresh_client) = Returned tt /\
  object_of (run_client opened fresh_client) = opened_client.
Proof. vm_compute. split; reflexivity. Qed.

(** The negotiated session ends in [connected_client], having written the
    connect message and the answer. *)
Example negotiated_session :
  ending_of (run_client negotiated fresh_client) = Returned tt /\
  object_of (run_client negotiated fresh_client) = connected_client /\
  written (calls_of (run_client negotiated fresh_client))
  = [dq ("{'type':'connect','role':'sendonly','multistream':false,'channel_id':'sora',"
         ++ "'sora_client':'Sora Unity SDK 2020.11.0 (5c7a1b2)',"
         ++ "'libwebrtc':'Shiguredo-build M86 (86.4240.10.0 2d9ee1e)',"
         ++ "'environment':'Unity 2019.4 for ubuntu-18.04_x86_64',"
         ++ "'video':{'codec_type':'VP9'},'audio':{'codec_type':'OPUS'}}");
     (dq "{'type':'answer','sdp':'v=0 answer'}")].
Proof. vm_compute. repeat split. Qed.

(** The connect message of a configuration with metadata and bitrates. *)
Example connect_message_tuned :
  JsonText.serialize
    (Json.Object (connect_message "2020.11.0" "5c7a1b2" "ubuntu-18.04_x86_64"
                                  "M86" "86.4240.10.0" "2d9ee1e" tuned_config))
  = dq ("{'type':'connect','role':'recvonly','multistream':true,'channel_id':'sora',"
        ++ "'sora_client':'Sora Unity SDK 2020.11.0 (5c7a1b2)',"
        ++ "'libwebrtc':'Shiguredo-build M86 (86.4240.10.0 2d9ee1e)',"
        ++ "'environment':'Unity 2019.4 for ubuntu-18.04_x86_64',"
        ++ "'metadata':{'key':'secret'},"
        ++ "'video':{'codec_type':'H264','bit_rate':500},"
        ++ "'audio':{'codec_type':'OPUS','bit_rate':64}}").
Proof. vm_compute. reflexivity. Qed.

(** A change to [kIceConnectionFailed] is posted, then assigned; nothing is
    written. *)
Example state_change_to_failed :
  run_client [IceConnectionState_changed kIceConnectionFailed;
              Posted_task_run (DoIceConnectionStateChange_task kIceConnectionFailed)]
             connected_client
  = (Returned tt, with_rtc_state kIceConnectionFailed connected_client,
     [RTC_LOG LS_INFO "OnIceConnectionStateChange state:4";
      asio_post system_executor (DoIceConnectionStateChange_task kIceConnectionFailed);
      RTC_LOG LS_INFO "DoIceConnectionStateChange: oldState=connected, newState=failed"]).
Proof. vm_compute. reflexivity. Qed.

(** C1, the three cases at concrete pings. *)
Lemma ping_answered_when_connected_witness :
  on_read success (String.length ping_text) ping_text opened_client
  = (Returned tt, opened_client,
     [RTC_LOG LS_INFO ("OnRead: text=" ++ ping_text); Websocket_Read]) /\
  (on_read success (String.length ping_stats_text) ping_stats_text connected_client
   = (Returned tt, connected_client,
      [RTC_LOG LS_INFO ("OnRead: text=" ++ ping_stats_text);
       RTCConnection_GetStats sample_connection; Websocket_Read]) /\
   GetStats_callback sample_report connected_client
   = (Returned tt, connected_client,
      [Websocket_WriteText (dq "{'type':'pong','stats':[{'id':'T01'}]}")])) /\
  on_read success (String.length ping_no_stats_text) ping_no_stats_text connected_client
  = (Returned tt, connected_client,
     [RTC_LOG LS_INFO ("OnRead: text=" ++ ping_no_stats_text);
      Websocket_WriteText (dq "{'type':'pong'}"); Websocket_Read]).
Proof.
  split; [| split].
  - apply (ping_answered_when_connected JsonText.parse JsonText.serialize makes_connection 125%Z
             opened_client (String.length ping_text) ping_text [("type", Json.Str "ping")]);
      [vm_compute; reflexivity | reflexivity | discriminate].
  - destruct (ping_answered_when_connected JsonText.parse JsonText.serialize makes_connection 125%Z
                connected_client (String.length ping_stats_text) ping_stats_text
                [("type", Json.Str "ping"); ("stats", Json.Bool true)])
      as (_ & B & _); [vm_compute; reflexivity | reflexivity |].
    destruct (B eq_refl eq_refl sample_connection eq_refl) as [R G].
    split; [exact R | exact (G connected_client sample_report)].
  - destruct (ping_answered_when_connected JsonText.parse JsonText.serialize makes_connection 125%Z
                connected_client (String.length ping_no_stats_text) ping_no_stats_text
                [("type", Json.Str "ping"); ("stats", Json.Bool false)])
      as (_ & _ & C); [vm_compute; reflexivity | reflexivity |].
    exact (proj1 (C eq_refl (or_intror eq_refl))).
Defined.

(** C1 as stated fails after [Release]: the state is still
    [kIceConnectionConnected], no connection is held, and a ping asking for
    statistics ends on the null dereference with no statistics asked for and
    no pong written. *)
Lemma ping_for_stats_after_Release :
  ending_of (run_client (negotiated ++ [Release_called]) fresh_client) = Returned tt /\
  rtc_state_ (object_of (run_client (negotiated ++ [Release_called]) fresh_client))
  = kIceConnectionConnected /\
  connection_ (object_of (run_client (negotiated ++ [Release_called]) fresh_client)) = None /\
  on_read success (String.length ping_stats_text) ping_stats_text
    (object_of (run_client (negotiated ++ [Release_called]) fresh_client))
  = (NullConnection,
     object_of (run_client (negotiated ++ [Release_called]) fresh_client),
     [RTC_LOG LS_INFO ("OnRead: text=" ++ ping_stats_text)]).
Proof. vm_compute. repeat split. Qed.

(** C2, at a concrete update and a concrete offer: the update goes to the
    connection held, the offer makes connection number 1 and gives up
    connection number 0. *)
Lemma offer_makes_connection_witness :
  on_read success (String.length update_text) update_text connected_client
  = (Returned tt, connected_client,
     [RTC_LOG LS_INFO ("OnRead: text=" ++ update_text);
      RTCConnection_SetOffer sample_connection "v=0 more" ForUpdate; Websocket_Read]) /\
  (connection_
     (object_of (on_read success (String.length update_text) update_text connected_client))
   = Some sample_connection /\
   count is_createConnection
     (calls_of (on_read success (String.length update_text) update_text connected_client))
   = 0) /\
  on_read success (String.length second_offer_text) second_offer_text connected_client
  = (Returned tt,
     with_connection (Some {| conn_id := 1; conn_config := {| servers := [] |} |})
       (with_manager 2 connected_client),
     [RTC_LOG LS_INFO ("OnRead: text=" ++ second_offer_text);
      RTCManager_createConnection {| servers := [] |};
      RTCConnection_release sample_connection;
      RTCConnection_SetOffer {| conn_id := 1; conn_config := {| servers := [] |} |}
        "v=0 again" ForOffer;
      Websocket_Read]).
Proof.
  split; [| split].
  - destruct (offer_makes_connection JsonText.parse JsonText.serialize makes_connection 125%Z
                connected_client success (String.length update_text) update_text)
      as (_ & _ & U & _).
    apply (U (Json.Object [("type", Json.Str "update"); ("sdp", Json.Str "v=0 more")]));
      vm_compute; reflexivity.
  - destruct (offer_makes_connection JsonText.parse JsonText.serialize makes_connection 125%Z
                connected_client success (String.length update_text) update_text)
      as (N & _).
    apply N. intros json_message P. vm_compute in P.
    injection P as <-. vm_compute. discriminate.
  - destruct (offer_makes_connection JsonText.parse JsonText.serialize makes_connection 125%Z
                connected_client success (String.length second_offer_text) second_offer_text)
      as (_ & _ & _ & O).
    apply (O (Json.Object
                [("type", Json.Str "offer");
                 ("config", Json.Object [("iceServers", Json.Array [])]);
                 ("sdp", Json.Str "v=0 again")])
             (Json.Object [("iceServers", Json.Array [])]));
      vm_compute; reflexivity.
Defined.

(** C2 as stated fails at a second offer: two connections are made in the
    session, and the one held after the second offer is not the one made by
    the first. *)
Lemma second_offer_makes_second_connection :
  connection_ (object_of (run_client (opened ++ [received offer_text]) fresh_client))
  = Some sample_connection /\
  connection_ (object_of (run_client
                            (opened ++ [received offer_text; received second_offer_text])
                            fresh_client))
  = Some {| conn_id := 1; conn_config := {| servers := [] |} |} /\
  count is_createConnection
    (calls_of (run_client (opened ++ [received offer_text; received second_offer_text])
                          fresh_client)) = 2.
Proof. vm_compute. repeat split. Qed.

(** C3, at a text that is not JSON and at a ping whose ["stats"] is not a
    boolean. *)
Lemma decode_failure_leaves_handler_witness :
  on_read success (String.length malformed_text) malformed_text connected_client
  = (Threw Json.system_error, connected_client,
     [RTC_LOG LS_INFO ("OnRead: text=" ++ malformed_text)]) /\
  on_read success 7 "[1,2,3]" connected_client
  = (Threw Json.invalid_argument, connected_client,
     [RTC_LOG LS_INFO "OnRead: text=[1,2,3]"]) /\
  (count is_read
     (calls_of (on_read success (String.length ping_odd_stats_text) ping_odd_stats_text
                  connected_client)) = 0 /\
   written
     (calls_of (on_read success (String.length ping_odd_stats_text) ping_odd_stats_text
                  connected_client)) = [] /\
   object_of (on_read success (String.length ping_odd_stats_text) ping_odd_stats_text
                connected_client)
   = connected_client).
Proof.
  split; [| split].
  - apply (decode_failure_leaves_handler JsonText.parse JsonText.serialize).
    vm_compute. reflexivity.
  - destruct (decode_failure_leaves_handler JsonText.parse JsonText.serialize makes_connection 125%Z
                connected_client 7 "[1,2,3]") as (_ & U & _).
    apply (U (Json.Array [Json.Int64 1; Json.Int64 2; Json.Int64 3]));
      vm_compute; reflexivity.
  - destruct (decode_failure_leaves_handler JsonText.parse JsonText.serialize makes_connection 125%Z
                connected_client (String.length ping_odd_stats_text) ping_odd_stats_text)
      as (_ & _ & F).
    destruct (F Json.invalid_argument) as (R & W & _ & _ & O);
      [vm_compute; reflexivity |].
    split; [exact R | split; [exact W |]].
    apply O. intros json_message P. vm_compute in P.
    injection P as <-. vm_compute. discriminate.
Defined.

(** C3 as stated fails at a text that is not JSON: the handler throws after
    its log line and issues no read, so the read loop has no read
    outstanding and does not take the next message. *)
Lemma malformed_text_ends_read_loop :
  JsonText.parse malformed_text = None /\
  on_read success (String.length malformed_text) malformed_text connected_client
  = (Threw Json.system_error, connected_client,
     [RTC_LOG LS_INFO ("OnRead: text=" ++ malformed_text)]) /\
  count is_read
    (calls_of (on_read success (String.length malformed_text) malformed_text
                 connected_client)) = 0 /\
  read_loop JsonText.parse JsonText.serialize makes_connection 125%Z
    [(success, malformed_text); (success, ping_text)] 1 connected_client = [0].
Proof. vm_compute. repeat split. Qed.

(** C5, at concrete completions: the read loop of a session, with one read
    outstanding after each message. *)
Lemma one_read_per_completed_read_witness :
  count is_read (calls_of (on_read success (String.length notify_text) notify_text
                             connected_client)) = 1 /\
  count is_read (calls_of (on_read success (String.length update_text) update_text
                             opened_client)) = 0 /\
  on_read success (String.length ping_stats_text) ping_stats_text opened_client
  = (Returned tt, opened_client,
     [RTC_LOG LS_INFO ("OnRead: text=" ++ ping_stats_text); Websocket_Read]) /\
  on_read success (String.length unknown_text) unknown_text connected_client
  = (Returned tt, connected_client,
     [RTC_LOG LS_INFO ("OnRead: text=" ++ unknown_text); Websocket_Read]) /\
  on_read (failure "system:104") 0 "" connected_client
  = (Returned tt, connected_client, [RTC_LOG LS_ERROR "Failed to read: ec=system:104"]) /\
  read_loop JsonText.parse JsonText.serialize makes_connection 125%Z
    [(success, offer_text); (success, ping_text); (success, notify_text);
     (success, unknown_text); (operation_aborted, ""); (success, ping_text)]
    1 opened_client
  = [1; 1; 1; 1; 0].
Proof.
  destruct (one_read_per_completed_read JsonText.parse JsonText.serialize makes_connection 125%Z
              connected_client (String.length notify_text) notify_text)
    as (_ & _ & R1 & _).
  destruct (one_read_per_completed_read JsonText.parse JsonText.serialize makes_connection 125%Z
              opened_client (String.length update_text) update_text)
    as (_ & _ & _ & R0 & _).
  destruct (one_read_per_completed_read JsonText.parse JsonText.serialize makes_connection 125%Z
              opened_client (String.length ping_stats_text) ping_stats_text)
    as (_ & _ & _ & _ & G & _).
  destruct (one_read_per_completed_read JsonText.parse JsonText.serialize makes_connection 125%Z
              connected_client (String.length unknown_text) unknown_text)
    as (_ & _ & _ & _ & _ & K & _).
  destruct (one_read_per_completed_read JsonText.parse JsonText.serialize makes_connection 125%Z
              connected_client 0 "") as (_ & E & _).
  split; [apply R1; vm_compute; reflexivity |].
  split; [apply R0; vm_compute; discriminate |].
  split; [apply (G (Json.Object [("type", Json.Str "ping"); ("stats", Json.Bool true)]));
          [vm_compute; reflexivity | reflexivity | discriminate] |].
  split; [apply (K (Json.Object [("type", Json.Str "push"); ("data", Json.Int64 1)]) "push");
          [vm_compute; reflexivity | reflexivity | | | |]; discriminate |].
  split; [exact (E "system:104") | vm_compute; reflexivity].
Defined.

(** C5 as stated fails on the update path: a well-formed update without
    ["sdp"] is dispatched by its type, the handler throws at the missing
    member and issues no read. *)
Lemma update_without_sdp_issues_no_read :
  JsonText.parse update_without_sdp_text = Some (Json.Object [("type", Json.Str "update")]) /\
  on_read success (String.length update_without_sdp_text) update_without_sdp_text
    connected_client
  = (Threw Json.out_of_range, connected_client,
     [RTC_LOG LS_INFO ("OnRead: text=" ++ update_without_sdp_text)]) /\
  count is_read
    (calls_of (on_read success (String.length update_without_sdp_text)
                 update_without_sdp_text connected_client)) = 0.
Proof. vm_compute. repeat split. Qed.

(** C4, in the states Connected, Completed and New. *)
Lemma getRTCConnection_only_when_connected_witness :
  getRTCConnection connected_client = Some sample_connection /\
  getRTCConnection (with_rtc_state kIceConnectionCompleted connected_client) = None /\
  getRTCConnection fresh_client = None.
Proof.
  split; [| split].
  - exact (proj1 (getRTCConnection_only_when_connected connected_client) eq_refl).
  - apply (proj1 (proj2 (getRTCConnection_only_when_connected
                           (with_rtc_state kIceConnectionCompleted connected_client)))).
    discriminate.
  - apply (proj1 (proj2 (getRTCConnection_only_when_connected fresh_client))).
    discriminate.
Defined.

(** C6, on the connected client of the negotiated session. *)
Lemma Connect_when_connected_witness :
  connected_ connected_client = true /\
  Connect URL.Parse connected_client
  = (Returned false, connected_client, [RTC_LOG LS_INFO "Connect"]).
Proof.
  split; [reflexivity | apply (Connect_when_connected URL.Parse connected_client)].
  reflexivity.
Defined.


(** C10, at a concrete update: answered by the connection held, and ending
    on the null dereference as the first message of a session and after
    [Release]. *)
Lemma update_dereferences_connection_witness :
  on_read success (String.length update_text) update_text connected_client
  = (Returned tt, connected_client,
     [RTC_LOG LS_INFO ("OnRead: text=" ++ update_text);
      RTCConnection_SetOffer sample_connection "v=0 more" ForUpdate; Websocket_Read]) /\
  on_read success (String.length update_text) update_text opened_client
  = (NullConnection, opened_client, [RTC_LOG LS_INFO ("OnRead: text=" ++ update_text)]) /\
  on_read success (String.length update_text) update_text
    (object_of (Release connected_client))
  = (NullConnection, object_of (Release connected_client),
     [RTC_LOG LS_INFO ("OnRead: text=" ++ update_text)]) /\
  ending_of (run_client (opened ++ [received update_text]) fresh_client) = NullConnection /\
  ending_of (run_client (negotiated ++ [Release_called; received update_text]) fresh_client)
  = NullConnection.
Proof.
  split; [| split; [| split]].
  - apply (update_dereferences_connection JsonText.parse JsonText.serialize makes_connection 125%Z
             connected_client (String.length update_text) update_text
             [("type", Json.Str "update"); ("sdp", Json.Str "v=0 more")] "v=0 more");
      vm_compute; reflexivity.
  - apply (update_dereferences_connection JsonText.parse JsonText.serialize makes_connection 125%Z
             opened_client (String.length update_text) update_text
             [("type", Json.Str "update"); ("sdp", Json.Str "v=0 more")] "v=0 more");
      vm_compute; reflexivity.
  - apply (update_dereferences_connection JsonText.parse JsonText.serialize makes_connection 125%Z
             (object_of (Release connected_client)) (String.length update_text) update_text
             [("type", Json.Str "update"); ("sdp", Json.Str "v=0 more")] "v=0 more");
      vm_compute; reflexivity.
  - vm_compute. split; reflexivity.
Defined.

(** ** Concrete runs of the further properties *)

(** X4, at a URL without a scheme and at an http URL. *)
Lemma Connect_refuses_url_witness :
  Connect URL.Parse schemeless_client
  = (Returned false, schemeless_client,
     [RTC_LOG LS_INFO "Connect"; RTC_LOG LS_INFO "Connect to ";
      RTC_LOG LS_ERROR "Invalid Signaling URL: sora.example.com/signaling"]) /\
  Connect URL.Parse http_client
  = (Returned false, http_client,
     [RTC_LOG LS_INFO "Connect"; RTC_LOG LS_INFO "Connect to "]).
Proof.
  split.
  - apply (proj1 (Connect_refuses_url URL.Parse schemeless_client eq_refl)).
    vm_compute. reflexivity.
  - apply (proj2 (Connect_refuses_url URL.Parse http_client eq_refl)
             {| scheme := "http"; host := "sora.example.com"; port := "" |});
      [vm_compute; reflexivity | discriminate | discriminate].
Defined.

(** X5, at a ws URL and at a wss URL. *)
Lemma Connect_opens_websocket_witness :
  Connect URL.Parse plain_client
  = (Returned true, with_ws (Some {| ssl := false; ws_insecure := false |}) plain_client,
     [RTC_LOG LS_INFO "Connect"; RTC_LOG LS_INFO "Connect to ";
      Websocket_new {| ssl := false; ws_insecure := false |};
      Websocket_Connect "ws://sora.example.com/signaling"]) /\
  Connect URL.Parse fresh_client
  = (Returned true, with_ws (Some {| ssl := true; ws_insecure := false |}) fresh_client,
     [RTC_LOG LS_INFO "Connect"; RTC_LOG LS_INFO "Connect to ";
      Websocket_new {| ssl := true; ws_insecure := false |};
      Websocket_Connect "wss://sora.example.com/signaling"]).
Proof.
  split.
  - apply (proj1 (Connect_opens_websocket URL.Parse plain_client
                    {| scheme := "ws"; host := "sora.example.com"; port := "" |}
                    eq_refl ltac:(vm_compute; reflexivity))).
    reflexivity.
  - apply (proj1 (proj2 (Connect_opens_websocket URL.Parse fresh_client
                           {| scheme := "wss"; host := "sora.example.com"; port := "" |}
                           eq_refl ltac:(vm_compute; reflexivity)))).
    reflexivity.
Defined.

(** X6, on the client of the sample configuration. *)
Lemma Connect_twice_before_handshake_witness :
  count opens_websocket
    (calls_of (bind (Connect URL.Parse) (fun _ => Connect URL.Parse) fresh_client)) = 4 /\
  ws_ (object_of (bind (Connect URL.Parse) (fun _ => Connect URL.Parse) fresh_client))
  = Some {| ssl := true; ws_insecure := false |}.
Proof.
  destruct (Connect_twice_before_handshake URL.Parse fresh_client
              {| scheme := "wss"; host := "sora.example.com"; port := "" |}
              eq_refl ltac:(vm_compute; reflexivity) eq_refl) as [R C].
  split; [exact C | rewrite R; reflexivity].
Defined.

(** X7, at a handshake cancelled on Linux, where the value is 125, on the
    client that has called [Connect]. *)
Lemma OnConnect_starts_session_witness :
  OnConnect JsonText.serialize "2020.11.0" "5c7a1b2" "ubuntu-18.04_x86_64" "M86"
            "86.4240.10.0" "2d9ee1e" 125%Z operation_aborted
            (object_of (Connect URL.Parse fresh_client))
  = (Returned tt, object_of (Connect URL.Parse fresh_client),
     [RTC_LOG LS_INFO "OnConnect";
      RTC_LOG LS_ERROR "Failed Websocket handshake: system:125"]).
Proof.
  apply (proj1 (OnConnect_starts_session JsonText.serialize "2020.11.0" "5c7a1b2"
                  "ubuntu-18.04_x86_64" "M86" "86.4240.10.0" "2d9ee1e" 125%Z
                  (object_of (Connect URL.Parse fresh_client)) operation_aborted)).
  reflexivity.
Defined.

(** X8: closing the websocket and connecting again, on the connected
    client. *)
Lemma connected_never_reset_witness :
  connected_ (object_of (run_client [Close_called; Close_completed success; Connect_called;
                                     received ping_text] connected_client)) = true /\
  count opens_websocket
    (calls_of (run_client [Close_called; Close_completed success; Connect_called;
                           received ping_text] connected_client)) = 0.
Proof.
  destruct (connected_never_reset JsonText.parse JsonText.serialize URL.Parse makes_connection
              "2020.11.0" "5c7a1b2" "ubuntu-18.04_x86_64" "M86" "86.4240.10.0" "2d9ee1e" 125%Z
              [Close_called; Close_completed success; Connect_called; received ping_text]
              connected_client eq_refl) as (A & _ & C).
  split; [exact A | exact C].
Defined.

(** X9: the state is reported but the posted task has not run yet. *)
Lemma state_changes_only_by_task_witness :
  rtc_state_ (object_of (run_client
                           (opened ++ [received offer_text;
                                       IceConnectionState_changed kIceConnectionConnected])
                           fresh_client))
  = kIceConnectionNew.
Proof.
  apply (proj1 (state_changes_only_by_task JsonText.parse JsonText.serialize URL.Parse
                  makes_connection
                  "2020.11.0" "5c7a1b2" "ubuntu-18.04_x86_64" "M86" "86.4240.10.0" "2d9ee1e" 125%Z
                  (opened ++ [received offer_text;
                              IceConnectionState_changed kIceConnectionConnected])
                  fresh_client eq_refl)).
Defined.

(** X10: after a first [Connect] to [sora.example.com], a second one still
    logs the host [parts_] was constructed with, the empty one. *)
Lemma config_and_parts_never_assigned_witness :
  List.nth_error
    (calls_of (Connect URL.Parse (object_of (run_client [Connect_called] fresh_client)))) 1
  = Some (RTC_LOG LS_INFO "Connect to ").
Proof.
  apply (proj2 (proj2 (proj2
           (config_and_parts_never_assigned JsonText.parse JsonText.serialize URL.Parse
              makes_connection
              "2020.11.0" "5c7a1b2" "ubuntu-18.04_x86_64" "M86" "86.4240.10.0" "2d9ee1e" 125%Z
              [Connect_called] fresh_client)))).
  vm_compute. reflexivity.
Defined.

(** X11, on three blocks with two, no and one url. *)
Lemma ice_servers_one_per_url_witness :
  rtc_config_of (jconfig_of sample_blocks)
  = Json.Ok {| servers :=
                 [{| uri := "turn:a.example.com"; username := "u1"; password := "p1" |};
                  {| uri := "turns:a.example.com"; username := "u1"; password := "p1" |};
                  {| uri := "stun:b.example.com"; username := "u3"; password := "p3" |}] |}.
Proof.
  exact (proj1 (ice_servers_one_per_url JsonText.parse JsonText.serialize makes_connection 125%Z
                  sample_blocks)).
Defined.

(** X12, at an empty config, at a config whose ["iceServers"] is a string,
    and at a block without ["username"] after a well-formed one. *)
Lemma ice_config_rejected_witness :
  rtc_config_of (Json.Object []) = Json.Raise Json.out_of_range /\
  rtc_config_of (Json.Object [("iceServers", Json.Str "none")])
  = Json.Raise Json.invalid_argument /\
  rtc_config_of
    (Json.Object
       [("iceServers",
         Json.Array [jserver_of {| block_urls := ["turn:a.example.com"];
                                   block_username := "u1"; block_credential := "p1" |};
                     Json.Object [("urls", Json.Array [Json.Str "turn:t.example.com"])]])])
  = Json.Raise Json.out_of_range.
Proof.
  split; [| split].
  - apply (proj1 (ice_config_rejected [])). reflexivity.
  - apply (proj1 (proj2 (ice_config_rejected [("iceServers", Json.Str "none")]))
             (Json.Str "none")); reflexivity.
  - apply (proj2 (proj2 (ice_config_rejected []))
             [{| block_urls := ["turn:a.example.com"];
                 block_username := "u1"; block_credential := "p1" |}]
             [("urls", Json.Array [Json.Str "turn:t.example.com"])] []).
    reflexivity.
Defined.

(** X13, at an offer without ["config"] and at one whose block has no
    ["username"]. *)
Lemma offer_with_bad_config_witness :
  on_read success (String.length offer_without_config_text) offer_without_config_text
    connected_client
  = (Threw Json.out_of_range, connected_client,
     [RTC_LOG LS_INFO ("OnRead: text=" ++ offer_without_config_text)]) /\
  on_read success (String.length offer_bad_config_text) offer_bad_config_text
    connected_client
  = (Threw Json.out_of_range, connected_client,
     [RTC_LOG LS_INFO ("OnRead: text=" ++ offer_bad_config_text)]).
Proof.
  split.
  - apply (offer_with_bad_config JsonText.parse JsonText.serialize makes_connection 125%Z
             connected_client _ offer_without_config_text
             (Json.Object [("type", Json.Str "offer"); ("sdp", Json.Str "v=0")]));
      [vm_compute; reflexivity | reflexivity | left; reflexivity].
  - apply (offer_with_bad_config JsonText.parse JsonText.serialize makes_connection 125%Z
             connected_client _ offer_bad_config_text
             (Json.Object
                [("type", Json.Str "offer");
                 ("config",
                  Json.Object
                    [("iceServers",
                      Json.Array
                        [Json.Object [("urls", Json.Array [Json.Str "turn:t.example.com"])]])]);
                 ("sdp", Json.Str "v=0")]));
      [vm_compute; reflexivity | reflexivity |].
    right. eexists. split; reflexivity.
Defined.

(** X14, at an offer with an empty server list and no ["sdp"]. *)
Lemma offer_without_sdp_witness :
  on_read success (String.length offer_without_sdp_text) offer_without_sdp_text
    connected_client
  = (Threw Json.out_of_range,
     with_connection (Some {| conn_id := 1; conn_config := {| servers := [] |} |})
       (with_manager 2 connected_client),
     [RTC_LOG LS_INFO ("OnRead: text=" ++ offer_without_sdp_text);
      RTCManager_createConnection {| servers := [] |};
      RTCConnection_release sample_connection]).
Proof.
  apply (offer_without_sdp JsonText.parse JsonText.serialize makes_connection 125%Z
           connected_client _ offer_without_sdp_text
           (Json.Object [("type", Json.Str "offer");
                         ("config", Json.Object [("iceServers", Json.Array [])])])
           (Json.Object [("iceServers", Json.Array [])]) {| servers := [] |});
    vm_compute; reflexivity.
Defined.

(** X15, at the sample offer on a client just made and at the sample update
    on the connected client. *)
Lemma negotiation_writes_one_answer_witness :
  written
    (calls_of
       (bind (on_read success (String.length offer_text) offer_text)
             (fun _ => bind (SetOffer_on_success ForOffer)
                            (fun _ => CreateAnswer_on_success JsonText.serialize ForOffer
                                        "v=0 answer"))
             opened_client))
  = [dq "{'type':'answer','sdp':'v=0 answer'}"] /\
  written
    (calls_of
       (bind (on_read success (String.length update_text) update_text)
             (fun _ => bind (SetOffer_on_success ForUpdate)
                            (fun _ => CreateAnswer_on_success JsonText.serialize ForUpdate
                                        "v=0 answer"))
             connected_client))
  = [dq "{'type':'update','sdp':'v=0 answer'}"].
Proof.
  split.
  - destruct (negotiation_writes_one_answer JsonText.parse JsonText.serialize makes_connection 125%Z
                opened_client (String.length offer_text) offer_text
                (Json.Object
                   [("type", Json.Str "offer");
                    ("config",
                     Json.Object
                       [("iceServers",
                         Json.Array
                           [Json.Object [("urls", Json.Array [Json.Str "turn:t.example.com"]);
                                         ("username", Json.Str "u");
                                         ("credential", Json.Str "p")]])]);
                    ("sdp", Json.Str "v=0")])
                "v=0" "v=0 answer") as [O _]; [vm_compute; reflexivity | reflexivity |].
    rewrite (O _ _ sample_connection eq_refl eq_refl eq_refl eq_refl). reflexivity.
  - destruct (negotiation_writes_one_answer JsonText.parse JsonText.serialize makes_connection 125%Z
                connected_client (String.length update_text) update_text
                (Json.Object [("type", Json.Str "update"); ("sdp", Json.Str "v=0 more")])
                "v=0 more" "v=0 answer") as [_ U]; [vm_compute; reflexivity | reflexivity |].
    rewrite (U sample_connection eq_refl eq_refl). reflexivity.
Defined.

(** X16, on the connected client. *)
Lemma completions_after_Release_witness :
  SetOffer_on_success ForOffer connected_client
  = (Returned tt, connected_client, [RTCConnection_CreateAnswer sample_connection ForOffer]) /\
  bind Release (fun _ => SetOffer_on_success ForOffer) connected_client
  = (NullConnection, with_connection None connected_client,
     [RTCConnection_release sample_connection]).
Proof.
  destruct (completions_after_Release JsonText.serialize connected_client ForOffer "v=0")
    as (A & _ & C).
  split; [exact (C sample_connection eq_refl) | exact A].
Defined.

(** X17, at a notify text with blanks around its tokens on the connected
    client, and on a client without a callback whose websocket is open. *)
Lemma notify_forwarded_verbatim_witness :
  on_read success (String.length spaced_notify_text) spaced_notify_text connected_client
  = (Returned tt, connected_client,
     [RTC_LOG LS_INFO ("OnRead: text=" ++ spaced_notify_text);
      on_notify spaced_notify_text; Websocket_Read]) /\
  on_read success (String.length notify_text) notify_text
    (object_of (run_client opened plain_client))
  = (Returned tt, object_of (run_client opened plain_client),
     [RTC_LOG LS_INFO ("OnRead: text=" ++ notify_text); Websocket_Read]).
Proof.
  split.
  - apply (notify_forwarded_verbatim JsonText.parse JsonText.serialize makes_connection 125%Z
             connected_client _ spaced_notify_text
             (Json.Object [("type", Json.Str "notify"); ("event_type", Json.Str "foo")]));
      [vm_compute; reflexivity | reflexivity].
  - apply (notify_forwarded_verbatim JsonText.parse JsonText.serialize makes_connection 125%Z
             (object_of (run_client opened plain_client)) _ notify_text
             (Json.Object [("type", Json.Str "notify"); ("event_type", Json.Str "foo")]));
      [vm_compute; reflexivity | vm_compute; reflexivity].
Defined.

(** X18, at a ping whose ["stats"] is the number 1. *)
Lemma ping_with_odd_stats_witness :
  on_read success (String.length ping_odd_stats_text) ping_odd_stats_text connected_client
  = (Threw Json.invalid_argument, connected_client,
     [RTC_LOG LS_INFO ("OnRead: text=" ++ ping_odd_stats_text)]).
Proof.
  apply (ping_with_odd_stats JsonText.parse JsonText.serialize makes_connection 125%Z
           connected_client _ ping_odd_stats_text
           [("type", Json.Str "ping"); ("stats", Json.Int64 1)] (Json.Int64 1));
    vm_compute; reflexivity.
Defined.

(** X19, at a ping and an update with a NUL in their strings, on the
    connected client. *)
Lemma strings_end_at_first_nul_witness :
  on_read success (String.length ping_with_nul_text) ping_with_nul_text connected_client
  = (Returned tt, connected_client,
     [RTC_LOG LS_INFO ("OnRead: text=" ++ ping_with_nul_text);
      Websocket_WriteText (dq "{'type':'pong'}"); Websocket_Read]) /\
  on_read success (String.length update_with_nul_text) update_with_nul_text connected_client
  = (Returned tt, connected_client,
     [RTC_LOG LS_INFO ("OnRead: text=" ++ update_with_nul_text);
      RTCConnection_SetOffer sample_connection "v=0" ForUpdate; Websocket_Read]).
Proof.
  split.
  - apply (proj1 (strings_end_at_first_nul JsonText.parse JsonText.serialize makes_connection
                    125%Z connected_client (String.length ping_with_nul_text)
                    ping_with_nul_text
                    [("type", Json.Str ("ping" ++ String Ascii.zero "pong"))] "pong"
                    eq_refl));
      reflexivity.
  - apply (proj2 (strings_end_at_first_nul JsonText.parse JsonText.serialize makes_connection
                    125%Z connected_client (String.length update_with_nul_text)
                    update_with_nul_text
                    [("type", Json.Str ("update" ++ String Ascii.zero "d"));
                     ("sdp", Json.Str ("v=0" ++ String Ascii.zero " more"))] "d"
                    eq_refl)
             sample_connection "v=0" " more");
      reflexivity.
Defined.
